(** * PropBot monitoring loop: metrics, drift detection, retraining trigger,
      notifications.

    Shallow embedding of
      - src/backend/monitoring/metrics.py        (Module Metrics)
      - src/backend/monitoring/drift_detector.py (Module Drift)
      - src/backend/retraining/trigger.py        (Module Trigger)
      - src/backend/notifications/alerts.py      (Module Alerts)
      - src/backend/scripts/retrain_model.py     (Module Pipeline)

    Conventions of the embedding.
      - A Python [int] is a [Z].  In Modules Metrics, Drift, Trigger and
        Pipeline a Python [float] is an exact rational [Q]: the arithmetic of
        the source is read over the rationals, and equality of two numbers is
        [Qeq] ([==]).  Binary rounding is not part of that reading, so a
        rounded value of it can differ in the last decimal from the one the
        interpreter prints, and a sum of quotients can differ in the last
        binary digit.
      - Where a result is stated digit for digit, the float is a binary64
        number (Module Py64): Module Metrics64 computes the two rounded
        ratios of [get_metrics] that are quotients of ints, as the
        interpreter does.
      - A [datetime] is the number of microseconds since the epoch, a
        [timedelta] a number of microseconds; [datetime.now()] is an explicit
        argument [now] of every function that reads the clock.
      - A [dict] with string keys that is used as a map is a [gmap string _];
        a [dict] that is used as a record, and read with [.get(key, default)],
        is a Rocq record whose optional keys are [option] fields.
      - A method that mutates [self] takes the object and returns the new one.
*)

From Stdlib Require Import ZArith QArith Qround Qabs Lia Lqa.
From Stdlib Require PrimFloat SpecFloat FloatOps.
From stdpp Require Import base list gmap strings pretty.

#[local] Set Warnings "-inexact-float".

Local Open Scope Z_scope.

(** ** Python building blocks *)

Module Py.

(** [x < y] and [x > y] on numbers, as booleans. *)
Definition Qltb (x y : Q) : bool := negb (Qle_bool y x).
Definition Qgtb (x y : Q) : bool := Qltb y x.

(** [min(x, y)]: the first argument unless the second is smaller. *)
Definition min (x y : Q) : Q := if Qltb y x then y else x.

(** [sum(xs)]: left to right, starting from [0]. *)
Definition sumQ (xs : list Q) : Q := foldl Qplus 0%Q xs.
Definition sumZ (xs : list Z) : Z := foldl Z.add 0 xs.

(** [len(xs)] as a Python int. *)
Definition len {A} (xs : list A) : Z := Z.of_nat (length xs).

(** [len(s)] for a [str] held as UTF-8 text: the number of code points,
    that is of bytes that do not continue a character ([10xxxxxx]). *)
Definition is_continuation (a : Ascii.ascii) : bool :=
  match a with Ascii.Ascii _ _ _ _ _ _ b6 b7 => b7 && negb b6 end.

Fixpoint len_str (s : string) : Z :=
  match s with
  | EmptyString => 0
  | String a s' => (if is_continuation a then 0 else 1) + len_str s'
  end.

(** [round(x, ndigits)]: round half to even at [ndigits] decimals. *)
Definition round_half_even (x : Q) : Z :=
  let f := Qfloor x in
  let r := (x - inject_Z f)%Q in
  if Qltb r (1 # 2) then f
  else if Qltb (1 # 2) r then f + 1
  else if Z.even f then f else f + 1.

Definition round (x : Q) (ndigits : nat) : Q :=
  let scale := inject_Z (10 ^ Z.of_nat ndigits) in
  (inject_Z (round_half_even (x * scale)) / scale)%Q.

(** [xs[i:]] for an int [i]: a negative [i] counts from the end, and an
    index outside the list is clamped. *)
Definition slice_from {A} (i : Z) (xs : list A) : list A :=
  if 0 <=? i then drop (Z.to_nat i) xs
  else drop (Z.to_nat (len xs + i)) xs.

(** [xs[:i]]. *)
Definition slice_to {A} (i : Z) (xs : list A) : list A :=
  if 0 <=? i then take (Z.to_nat i) xs
  else take (Z.to_nat (len xs + i)) xs.

(** [(t1 - t0).total_seconds()] for datetimes in microseconds. *)
Definition total_seconds (td : Z) : Q := (inject_Z td / 1000000)%Q.

End Py.

(** ** Python floats in binary64 *)

Module Py64.
Import PrimFloat.

(** An int, as a binary number that is not rounded yet. *)
Definition of_int (z : Z) : SpecFloat.spec_float :=
  match z with
  | Z0 => SpecFloat.S754_zero false
  | Zpos p => SpecFloat.S754_finite false p 0
  | Zneg p => SpecFloat.S754_finite true p 0
  end.

(** The double nearest to the quotient of two ints, ties to even. *)
Definition div_int (a b : Z) : float :=
  FloatOps.SF2Prim (SpecFloat.SFdiv FloatOps.prec FloatOps.emax (of_int a) (of_int b)).

(** The least magnitude that rounds beyond the largest double. *)
Definition overflow_threshold : Z := 2 ^ 1024 - 2 ^ 970.

(** [a / b] on two ints: the quotient rounded once.  [None] where it
    raises: [ZeroDivisionError] for [b = 0], [OverflowError] for a quotient
    outside the range of a double. *)
Definition truediv (a b : Z) : option float :=
  if b =? 0 then None
  else if Qle_bool (inject_Z overflow_threshold) (Qabs (inject_Z a / inject_Z b)) then None
  else Some (div_int a b).

(** The rational a finite double stands for. *)
Definition value (x : float) : option Q :=
  match FloatOps.Prim2SF x with
  | SpecFloat.S754_zero _ => Some 0%Q
  | SpecFloat.S754_finite s m e =>
      Some ((if s then -1 else 1) * inject_Z (Z.pos m) * Qpower 2 e)%Q
  | _ => None
  end.

(** [round(x, ndigits)] on a float, [ndigits >= 0]: the decimal with
    [ndigits] places nearest to the value [x] stands for, ties of that value
    to even, then the double nearest to this decimal.  An infinity, a nan
    and any [x] for [ndigits > 323] are returned as they are; the sign of
    [x] is kept. *)
Definition round (x : float) (ndigits : nat) : float :=
  if 323 <? Z.of_nat ndigits then x
  else
    match value (abs x) with
    | Some q =>
        let scale := 10 ^ Z.of_nat ndigits in
        let r := div_int (Py.round_half_even (q * inject_Z scale)) scale in
        if get_sign x then (- r)%float else r
    | None => x
    end.

End Py64.

(** ** metrics.py *)

Module Metrics.

(** [self.metrics] of [MetricsCollector], with [self.start_time]. *)
Record MetricsCollector := {
  api_calls : Z;
  successful_responses : Z;
  failed_responses : Z;
  avg_response_time : list Q;
  chromadb_queries : Z;
  properties_returned : list Z;
  query_types : gmap string Z;
  start_time : Z
}.

(** [MetricsCollector.__init__] *)
Definition init (now : Z) : MetricsCollector := {|
  api_calls := 0;
  successful_responses := 0;
  failed_responses := 0;
  avg_response_time := [];
  chromadb_queries := 0;
  properties_returned := [];
  query_types := ∅;
  start_time := now
|}.

(** The arguments of one [record_api_call]. *)
Record Call := {
  success : bool;
  response_time : Q;
  properties_count : Z;
  query_type : string
}.

(** [MetricsCollector.record_api_call] *)
Definition record_api_call (self : MetricsCollector) (c : Call) : MetricsCollector :=
  let types0 :=
    match query_types self !! query_type c with
    | None => <[query_type c := 0]> (query_types self)
    | Some _ => query_types self
    end in
  {|
    api_calls := api_calls self + 1;
    successful_responses :=
      if success c then successful_responses self + 1 else successful_responses self;
    failed_responses :=
      if success c then failed_responses self else failed_responses self + 1;
    avg_response_time := avg_response_time self ++ [response_time c];
    chromadb_queries := chromadb_queries self + 1;
    properties_returned := properties_returned self ++ [properties_count c];
    query_types := alter (λ n, n + 1) (query_type c) types0;
    start_time := start_time self
  |}.

(** The dict returned by [get_metrics]. *)
Record Snapshot := {
  total_api_calls : Z;
  snap_successful_responses : Z;
  snap_failed_responses : Z;
  success_rate_percent : Q;
  avg_response_time_seconds : Q;
  avg_properties_returned : Q;
  snap_chromadb_queries : Z;
  snap_query_types : gmap string Z;
  uptime_seconds : Q;
  timestamp : Z
}.

(** [MetricsCollector.get_metrics], its numbers read over the rationals.
    Module Metrics64 below has ['success_rate_percent'] and
    ['avg_properties_returned'] as the doubles the interpreter computes. *)
Definition get_metrics (self : MetricsCollector) (now : Z) : Snapshot :=
  let avg_response :=
    match avg_response_time self with
    | [] => 0%Q
    | _ => (Py.sumQ (avg_response_time self) / inject_Z (Py.len (avg_response_time self)))%Q
    end in
  let avg_properties :=
    match properties_returned self with
    | [] => 0%Q
    | _ => (inject_Z (Py.sumZ (properties_returned self))
            / inject_Z (Py.len (properties_returned self)))%Q
    end in
  let success_rate :=
    if 0 <? api_calls self
    then (inject_Z (successful_responses self) / inject_Z (api_calls self) * 100)%Q
    else 0%Q in
  let uptime := Py.total_seconds (now - start_time self) in
  {|
    total_api_calls := api_calls self;
    snap_successful_responses := successful_responses self;
    snap_failed_responses := failed_responses self;
    success_rate_percent := Py.round success_rate 2;
    avg_response_time_seconds := Py.round avg_response 3;
    avg_properties_returned := Py.round avg_properties 1;
    snap_chromadb_queries := chromadb_queries self;
    snap_query_types := query_types self;
    uptime_seconds := Py.round uptime 0;
    timestamp := now
  |}.

(** A collector after a sequence of [record_api_call]s. *)
Definition record_all (self : MetricsCollector) (cs : list Call) : MetricsCollector :=
  foldl record_api_call self cs.

(** Number of calls of a sequence that succeeded, and that failed. *)
Definition successes (cs : list Call) : Z :=
  Py.len (filter (λ c, success c = true) cs).
Definition failures (cs : list Call) : Z :=
  Py.len (filter (λ c, success c = false) cs).

(** The counter invariant of the collector. *)
Definition counters_consistent (m : MetricsCollector) : Prop :=
  successful_responses m + failed_responses m = api_calls m
  ∧ chromadb_queries m = api_calls m.

(** One success followed by two failures. *)
Definition one_in_three : list Call :=
  [ {| success := true; response_time := 1 # 2; properties_count := 3;
       query_type := "search" |};
    {| success := false; response_time := 2; properties_count := 0;
       query_type := "search" |};
    {| success := false; response_time := 4; properties_count := 0;
       query_type := "price_check" |} ].

(** *** check_health *)

(** The dict returned by [check_health]. *)
Record Health := {
  healthy : bool;
  issues : list string;
  health_metrics : Snapshot
}.

Section WithStr.

(** [str(x)], the rendering of a number by [f"{x}"]. *)
Variable str : Q → string.

Definition low_success_rate_issue (metrics : Snapshot) : string :=
  "Low success rate: " +:+ str (success_rate_percent metrics) +:+ "%".

Definition high_response_time_issue (metrics : Snapshot) : string :=
  "High response time: " +:+ str (avg_response_time_seconds metrics) +:+ "s".

(** [MetricsCollector.check_health] *)
Definition check_health (self : MetricsCollector) (now : Z) : Health :=
  let metrics := get_metrics self now in
  (* Check success rate *)
  let '(healthy1, issues1) :=
    if Py.Qltb (success_rate_percent metrics) 95
    then (false, [low_success_rate_issue metrics])
    else (true, []) in
  (* Check response time *)
  let '(healthy2, issues2) :=
    if Py.Qgtb (avg_response_time_seconds metrics) 3
    then (false, issues1 ++ [high_response_time_issue metrics])
    else (healthy1, issues1) in
  (* Check if system is responding *)
  let '(healthy3, issues3) :=
    if (0 <? total_api_calls metrics) && (snap_successful_responses metrics =? 0)
    then (false, issues2 ++ ["No successful responses"%string])
    else (healthy2, issues2) in
  {| healthy := healthy3; issues := issues3; health_metrics := metrics |}.

End WithStr.

(** A stand-in for [str], to run examples with. *)
Definition example_str (x : Q) : string := "".


Definition all_failed : list Call :=
  replicate 3 {| success := false; response_time := 5; properties_count := 0;
                 query_type := "search" |}.

(** Number of calls of a sequence made with a query type. *)
Definition calls_of_type (type : string) (cs : list Call) : Z :=
  Py.len (filter (λ c, query_type c = type) cs).

End Metrics.

(** ** metrics.py: the rounded ratios of [get_metrics] in binary64 *)

Module Metrics64.
Import PrimFloat Metrics.

(** ['success_rate_percent'] of [get_metrics]:
    [round(successful_responses / api_calls * 100, 2)] when [api_calls > 0],
    else [round(0, 2)], which is zero.  [None] where the source raises. *)
Definition success_rate_percent (self : MetricsCollector) : option float :=
  success_rate ←
    (if 0 <? api_calls self
     then x ← Py64.truediv (successful_responses self) (api_calls self);
          Some (x * 100)%float
     else Some 0%float);
  Some (Py64.round success_rate 2).

(** ['avg_properties_returned'] of [get_metrics]:
    [round(sum(properties_returned) / len(properties_returned), 1)] when the
    list is not empty, else [round(0, 1)], which is zero. *)
Definition avg_properties_returned (self : MetricsCollector) : option float :=
  avg_properties ←
    match properties_returned self with
    | [] => Some 0%float
    | _ => Py64.truediv (Py.sumZ (properties_returned self))
                        (Py.len (properties_returned self))
    end;
  Some (Py64.round avg_properties 1).

(** [n] calls that succeeded and returned [k] properties each, and [n]
    calls that failed. *)
Definition succeeded (n : nat) (k : Z) : list Call :=
  replicate n {| success := true; response_time := 1; properties_count := k;
                 query_type := "search" |}.
Definition failed (n : nat) : list Call :=
  replicate n {| success := false; response_time := 1; properties_count := 0;
                 query_type := "search" |}.

(** 160 calls: 23 succeeded, 8 of them with one property, and 137 failed. *)
Definition calls_23_of_160 : list Call :=
  succeeded 8 1 ++ succeeded 15 0 ++ failed 137.

(** 160 calls: 49 succeeded and 111 failed. *)
Definition calls_49_of_160 : list Call := succeeded 49 2 ++ failed 111.

End Metrics64.

(** ** drift_detector.py *)

Module Drift.

(** A [query_data] dict.  Every key is optional: the detector reads them
    with [q.get(key, default)] and tests ['neighborhood' in q]. *)
Record QueryData := {
  query : option string;
  properties_count : option Z;
  response_time : option Q;
  query_type : option string;
  neighborhood : option string;
  timestamp : option Z
}.

(** The dict returned by [_calculate_statistics]. *)
Record Stats := {
  avg_query_length : Q;
  std_query_length : Q;
  avg_properties_returned : Q;
  avg_response_time : Q;
  query_type_distribution : gmap string Z;
  neighborhood_distribution : gmap string Z;
  total_queries : Z
}.

(** The two dicts [detect_drift] can return. *)
Record Insufficient := {
  ins_drift_detected : bool;
  ins_reason : string;
  ins_samples : Z
}.

Record DriftReport := {
  drift_detected : bool;
  drift_score : Q;
  threshold : Q;
  rep_baseline_stats : Stats;
  rep_current_stats : Stats;
  rep_timestamp : Z
}.

Inductive DetectResult :=
| InsufficientData (r : Insufficient)
| Report (r : DriftReport).

(** [DriftDetector]'s attributes. *)
Record DriftDetector := {
  window_size : Z;
  drift_threshold : Q;
  recent_queries : list QueryData;
  baseline_stats : option Stats;
  drift_history : list DriftReport
}.

(** [DriftDetector.__init__] *)
Definition init (window_size : Z) (drift_threshold : Q) : DriftDetector := {|
  window_size := window_size;
  drift_threshold := drift_threshold;
  recent_queries := [];
  baseline_stats := None;
  drift_history := []
|}.

(** The module-level [drift_detector]. *)
Definition drift_detector : DriftDetector := init 100 (3 # 10).

(** [query_data['timestamp'] = now].  The assignment writes into the
    caller's dict; nothing the detector computes reads the timestamp of a
    stored record, so the stored record is taken as a value. *)
Definition set_timestamp (query_data : QueryData) (now : Z) : QueryData := {|
  query := query query_data;
  properties_count := properties_count query_data;
  response_time := response_time query_data;
  query_type := query_type query_data;
  neighborhood := neighborhood query_data;
  timestamp := Some now
|}.

(** [dict(Counter(xs))] *)
Definition Counter (xs : list string) : gmap string Z :=
  foldl (λ m k, <[k := default 0 (m !! k) + 1]> m) ∅ xs.

(** [np.mean(xs)] of a non-empty list. *)
Definition np_mean (xs : list Q) : Q := (Py.sumQ xs / inject_Z (Py.len xs))%Q.

(** [sum(dist.values())] *)
Definition sum_values (dist : gmap string Z) : Z :=
  map_fold (λ _ v acc, acc + v) 0 dist.

(** [norm_dist.get(key, 0)] where [norm_dist = {k: v/total ...}] *)
Definition norm_get (dist : gmap string Z) (total : Z) (key : string) : Q :=
  match dist !! key with
  | Some v => (inject_Z v / inject_Z total)%Q
  | None => 0%Q
  end.

(** [DriftDetector._distribution_difference] *)
Definition _distribution_difference (dist1 dist2 : gmap string Z) : Q :=
  let total1 := sum_values dist1 in
  let total2 := sum_values dist2 in
  if (total1 =? 0) || (total2 =? 0) then 0%Q
  else
    let all_keys : gset string := dom dist1 ∪ dom dist2 in
    let diff_sum :=
      set_fold (λ key acc,
                  (acc + Qabs (norm_get dist1 total1 key - norm_get dist2 total2 key))%Q)
               0%Q all_keys in
    (diff_sum / 2)%Q.

(** The body of the loop over [numerical_features]: the score a feature
    appends, if any. *)
Definition feature_score (baseline_val current_val : Q) : list Q :=
  if Py.Qgtb baseline_val 0
  then [Py.min (Qabs (current_val - baseline_val) / baseline_val) 1]
  else [].

(** The list [scores] after the loop over [numerical_features]. *)
Definition numerical_scores (baseline current : Stats) : list Q :=
  feature_score (avg_query_length baseline) (avg_query_length current)
  ++ feature_score (avg_properties_returned baseline) (avg_properties_returned current)
  ++ feature_score (avg_response_time baseline) (avg_response_time current).

(** The list [scores] at the end of [_calculate_drift_score]. *)
Definition drift_scores (baseline current : Stats) : list Q :=
  let numerical := numerical_scores baseline current in
  let baseline_types := query_type_distribution baseline in
  let current_types := query_type_distribution current in
  if bool_decide (baseline_types ≠ ∅) && bool_decide (current_types ≠ ∅)
  then numerical ++ [_distribution_difference baseline_types current_types]
  else numerical.

(** [DriftDetector._calculate_drift_score] *)
Definition _calculate_drift_score (baseline current : Stats) : Q :=
  match drift_scores baseline current with
  | [] => 0%Q
  | scores => np_mean scores
  end.

Section WithSqrt.

(** [np.sqrt], which the rationals do not have: the standard deviation is
    computed through this function, whatever it is. *)
Variable np_sqrt : Q → Q.

(** [np.std(xs)] of a non-empty list. *)
Definition np_std (xs : list Q) : Q :=
  let m := np_mean xs in
  np_sqrt (np_mean (map (λ x, Qabs (x - m) * Qabs (x - m))%Q xs)).

(** [DriftDetector._calculate_statistics] *)
Definition _calculate_statistics (queries : list QueryData) : Stats :=
  let query_lengths :=
    map (λ q, inject_Z (Py.len_str (default ""%string (query q)))) queries in
  let properties_counts := map (λ q, inject_Z (default 0 (properties_count q))) queries in
  let response_times := map (λ q, default 0%Q (response_time q)) queries in
  let query_types := map (λ q, default "unknown"%string (query_type q)) queries in
  let type_distribution := Counter query_types in
  let neighborhoods := omap neighborhood queries in
  let neighborhood_dist := Counter neighborhoods in
  {|
    avg_query_length := match query_lengths with [] => 0%Q | _ => np_mean query_lengths end;
    std_query_length := match query_lengths with [] => 0%Q | _ => np_std query_lengths end;
    avg_properties_returned :=
      match properties_counts with [] => 0%Q | _ => np_mean properties_counts end;
    avg_response_time :=
      match response_times with [] => 0%Q | _ => np_mean response_times end;
    query_type_distribution := type_distribution;
    neighborhood_distribution := neighborhood_dist;
    total_queries := Py.len queries
  |}.

(** [DriftDetector.record_query] *)
Definition record_query (self : DriftDetector) (now : Z) (query_data : QueryData)
  : DriftDetector :=
  let appended := recent_queries self ++ [set_timestamp query_data now] in
  let window :=
    if window_size self <? Py.len appended
    then Py.slice_from (- window_size self) appended
    else appended in
  let baseline :=
    match baseline_stats self with
    | None => if 50 <=? Py.len window then Some (_calculate_statistics window) else None
    | Some b => Some b
    end in
  {|
    window_size := window_size self;
    drift_threshold := drift_threshold self;
    recent_queries := window;
    baseline_stats := baseline;
    drift_history := drift_history self
  |}.

(** [DriftDetector.detect_drift] *)
Definition detect_drift (self : DriftDetector) (now : Z) : DetectResult * DriftDetector :=
  if Py.len (recent_queries self) <? 50 then
    (InsufficientData {|
       ins_drift_detected := false;
       ins_reason := "Insufficient data for drift detection";
       ins_samples := Py.len (recent_queries self)
     |}, self)
  else
    let baseline :=
      match baseline_stats self with
      | None => _calculate_statistics (Py.slice_to 50 (recent_queries self))
      | Some b => b
      end in
    let current_stats := _calculate_statistics (Py.slice_from (-50) (recent_queries self)) in
    let score := _calculate_drift_score baseline current_stats in
    let detected := Py.Qgtb score (drift_threshold self) in
    let result := {|
      drift_detected := detected;
      drift_score := Py.round score 3;
      threshold := drift_threshold self;
      rep_baseline_stats := baseline;
      rep_current_stats := current_stats;
      rep_timestamp := now
    |} in
    (Report result,
     {|
       window_size := window_size self;
       drift_threshold := drift_threshold self;
       recent_queries := recent_queries self;
       baseline_stats := Some baseline;
       drift_history :=
         if detected then drift_history self ++ [result] else drift_history self
     |}).

(** One call on the detector, with the clock reading it sees. *)
Inductive Op :=
| OpRecord (now : Z) (query_data : QueryData)
| OpDetect (now : Z).

Definition step (self : DriftDetector) (op : Op) : DriftDetector :=
  match op with
  | OpRecord now q => record_query self now q
  | OpDetect now => (detect_drift self now).2
  end.

Definition run (self : DriftDetector) (ops : list Op) : DriftDetector :=
  foldl step self ops.

End WithSqrt.

(** The records a sequence of calls hands to the detector, as stored. *)
Definition recorded (ops : list Op) : list QueryData :=
  omap (λ op, match op with
              | OpRecord now q => Some (set_timestamp q now)
              | OpDetect _ => None
              end) ops.

(** The three means of the numerical features are the same in two
    statistics. *)
Definition same_means (baseline current : Stats) : Prop :=
  (avg_query_length baseline == avg_query_length current)%Q
  ∧ (avg_properties_returned baseline == avg_properties_returned current)%Q
  ∧ (avg_response_time baseline == avg_response_time current)%Q.

(** *** Inputs of the examples *)

(** A square root on the rationals to run examples with: the integer square
    root of numerator times denominator, over the denominator.  It is exact
    on the squares of rationals in lowest terms, [0] among them. *)
Definition example_sqrt (x : Q) : Q :=
  (inject_Z (Z.sqrt (Qnum x * QDen x)) / inject_Z (QDen x))%Q.

Definition query_of (text : string) (count : Z) (time : Q) (type : string) : QueryData := {|
  query := Some text;
  properties_count := Some count;
  response_time := Some time;
  query_type := Some type;
  neighborhood := None;
  timestamp := None
|}.

(** A query that differs from its siblings in nothing but its type. *)
Definition typed_query (type : string) : QueryData :=
  query_of "2 bedroom apartments near downtown" 5 (3 # 2) type.

(** A query dict with no key but its type. *)
Definition typed_only (type : string) : QueryData := {|
  query := None;
  properties_count := None;
  response_time := None;
  query_type := Some type;
  neighborhood := None;
  timestamp := None
|}.

(** Two sets of searches with the same means, from different records. *)
Definition searches_a : list QueryData :=
  [query_of "loft" 4 1 "search"; query_of "duplex" 6 2 "search"].
Definition searches_b : list QueryData :=
  [query_of "house" 5 (3 # 2) "search"; query_of "condo" 5 (3 # 2) "search"].

(** [n] calls of [record_query] with the same query, one second apart
    from [start] on. *)
Definition record_n (start : Z) (n : nat) (q : QueryData) : list Op :=
  map (λ i, OpRecord (start + 1000000 * Z.of_nat i) q) (seq 0 n).

(** The module-level detector after 49 records, and after 50. *)
Definition warming_up (np_sqrt : Q → Q) : DriftDetector :=
  run np_sqrt drift_detector (record_n 0 49 (typed_query "search")).
Definition just_active (np_sqrt : Q → Q) : DriftDetector :=
  run np_sqrt drift_detector (record_n 0 50 (typed_query "search")).

(** 50 searches followed by 50 price checks. *)
Definition fifty_fifty : list Op :=
  record_n 0 50 (typed_query "search") ++ record_n 50000000 50 (typed_query "price_check").

(** 60 searches followed by 50 price checks. *)
Definition search_then_price_check : list Op :=
  record_n 0 60 (typed_query "search") ++ record_n 60000000 50 (typed_query "price_check").

(** *** should_trigger_retraining *)

(** [DriftDetector.should_trigger_retraining].  The timestamp of a report is
    kept as the datetime that [isoformat] renders and [fromisoformat] reads
    back. *)
Definition should_trigger_retraining (self : DriftDetector) (now : Z) : bool :=
  let recent_drifts :=
    filter (λ d, now - 24 * 3600 * 1000000 < rep_timestamp d) (drift_history self) in
  3 <=? Py.len recent_drifts.

(** The clock readings of the [detect_drift] calls of a sequence. *)
Definition detect_times (ops : list Op) : list Z :=
  omap (λ op, match op with
              | OpRecord _ _ => None
              | OpDetect now => Some now
              end) ops.

(** 50 searches, 50 price checks, and three [detect_drift] calls an hour
    apart. *)
Definition drifting_thrice : list Op :=
  record_n 0 50 (typed_only "search") ++ record_n 50000000 50 (typed_only "price_check")
  ++ [OpDetect 3600000000; OpDetect 7200000000; OpDetect 10800000000].

(** The module-level detector after 60 searches and 50 price checks that
    carry nothing but their type. *)
Definition type_shift_only : DriftDetector :=
  run example_sqrt drift_detector
    (record_n 0 60 (typed_only "search") ++ record_n 60000000 50 (typed_only "price_check")).

(** Every count of a histogram is at least [0]. *)
Definition counts_nonneg (dist : gmap string Z) : Prop :=
  map_Forall (λ _ v, 0 <= v) dist.

End Drift.

(** ** trigger.py *)

Module Trigger.

(** The [metrics] dict [evaluate_retraining_need] reads, by the keys it
    reads. *)
Record MetricsInfo := {
  success_rate_percent : option Q;
  total_api_calls : option Z;
  failed_responses : option Z;
  avg_response_time_seconds : option Q
}.

(** The [drift_info] dict, by the keys read. *)
Record DriftInfo := {
  drift_detected : option bool;
  drift_score : option Q
}.

(** The ['metrics_evaluated'] entry of a decision. *)
Record Evaluated := {
  ev_success_rate : Q;
  ev_drift_score : Q;
  ev_error_rate : Q;
  ev_avg_response_time : Q
}.

(** The dict [evaluate_retraining_need] returns.  The early return has the
    key ['time_since_last_hours'], the full evaluation has ['timestamp']
    and ['metrics_evaluated']. *)
Record Decision := {
  should_retrain : bool;
  reasons : list string;
  time_since_last_hours : option Q;
  timestamp : option Z;
  metrics_evaluated : option Evaluated
}.

(** [RetrainingTrigger]'s attributes. *)
Record RetrainingTrigger := {
  performance_threshold : Q;
  drift_threshold : Q;
  min_samples_for_evaluation : Z;
  retraining_history : list Decision;
  last_retraining : option Z;
  min_retraining_interval_hours : Q
}.

(** [RetrainingTrigger.__init__] *)
Definition init : RetrainingTrigger := {|
  performance_threshold := 85 # 100;
  drift_threshold := 3 # 10;
  min_samples_for_evaluation := 100;
  retraining_history := [];
  last_retraining := None;
  min_retraining_interval_hours := 24
|}.

(** The thresholds are those [__init__] sets; no method assigns them. *)
Definition default_config (self : RetrainingTrigger) : Prop :=
  performance_threshold self = performance_threshold init
  ∧ drift_threshold self = drift_threshold init
  ∧ min_samples_for_evaluation self = min_samples_for_evaluation init
  ∧ min_retraining_interval_hours self = min_retraining_interval_hours init.

(** [RetrainingTrigger._record_retraining_event] *)
Definition _record_retraining_event (self : RetrainingTrigger) (event : Decision)
  : RetrainingTrigger :=
  let appended := retraining_history self ++ [event] in
  {|
    performance_threshold := performance_threshold self;
    drift_threshold := drift_threshold self;
    min_samples_for_evaluation := min_samples_for_evaluation self;
    retraining_history :=
      if 100 <? Py.len appended then Py.slice_from (-100) appended else appended;
    last_retraining := last_retraining self;
    min_retraining_interval_hours := min_retraining_interval_hours self
  |}.

(** Hours between [last_retraining] and [now]:
    [time_since_last.total_seconds() / 3600]. *)
Definition hours_since (last now : Z) : Q := (Py.total_seconds (now - last) / 3600)%Q.

(** The guard of the early return: [last_retraining] is set and fewer than
    [min_retraining_interval_hours] hours have passed. *)
Definition too_soon (self : RetrainingTrigger) (now : Z) : bool :=
  match last_retraining self with
  | Some last => Py.Qltb (hours_since last now) (min_retraining_interval_hours self)
  | None => false
  end.

(** A retraining job descriptor. *)
Record Job := {
  job_id : string;
  triggered_at : Z;
  job_reason : string;
  status : string;
  steps : list string
}.

(** What [trigger_retraining_pipeline] finds outside the process. *)
Record World := {
  (** the content of [/tmp/retraining_jobs.json], [None] when it is absent *)
  jobs_file : option (list Job);
  (** reading or writing the jobs file raises *)
  jobs_io_error : bool;
  (** [os.path.exists(script_path)] *)
  script_exists : bool;
  (** the pid [subprocess.Popen] returns, [None] when it raises *)
  popen : option Z
}.

(** [RetrainingTrigger._save_retraining_job].  An exception anywhere in
    its [try] is caught and logged; the file is taken as untouched then. *)
Definition _save_retraining_job (w : World) (job : Job) : World :=
  if jobs_io_error w then w
  else {|
    jobs_file := Some (default [] (jobs_file w) ++ [job]);
    jobs_io_error := jobs_io_error w;
    script_exists := script_exists w;
    popen := popen w
  |}.

(** [metrics.get('success_rate_percent', 100) / 100] *)
Definition success_rate_of (metrics : MetricsInfo) : Q :=
  (default 100%Q (success_rate_percent metrics) / 100)%Q.

(** The four checks as the specification words them, with the thresholds
    of [__init__] and the defaults of the [.get] calls. *)
Definition performance_degraded (metrics : MetricsInfo) : bool :=
  Py.Qltb (default 100%Q (success_rate_percent metrics) / 100) (85 # 100).

Definition drift_significant (drift_info : DriftInfo) : bool :=
  default false (drift_detected drift_info)
  && Py.Qgtb (default 0%Q (drift_score drift_info)) (3 # 10).

Definition error_rate_high (metrics : MetricsInfo) : bool :=
  (100 <=? default 0 (total_api_calls metrics))
  && Py.Qgtb (inject_Z (default 0 (failed_responses metrics))
              / inject_Z (default 0 (total_api_calls metrics))) (15 # 100).

Definition response_time_degraded (metrics : MetricsInfo) : bool :=
  Py.Qgtb (default 0%Q (avg_response_time_seconds metrics)) 5.

(** A trigger that retrained at [last], and metrics as in the
    specification's examples. *)
Definition retrained_at (last : Z) : RetrainingTrigger := {|
  performance_threshold := performance_threshold init;
  drift_threshold := drift_threshold init;
  min_samples_for_evaluation := min_samples_for_evaluation init;
  retraining_history := [];
  last_retraining := Some last;
  min_retraining_interval_hours := min_retraining_interval_hours init
|}.

Definition healthy_metrics : MetricsInfo := {|
  success_rate_percent := Some 100%Q;
  total_api_calls := Some 250;
  failed_responses := Some 0;
  avg_response_time_seconds := Some 1%Q
|}.

Definition failing_metrics : MetricsInfo := {|
  success_rate_percent := Some 80%Q;
  total_api_calls := Some 250;
  failed_responses := Some 50;
  avg_response_time_seconds := Some 6%Q
|}.

Definition no_drift : DriftInfo := {|
  drift_detected := Some false;
  drift_score := Some (1 # 10)
|}.

Definition strong_drift : DriftInfo := {|
  drift_detected := Some true;
  drift_score := Some (1 # 2)
|}.

(** The runner script is missing; the runner script is there and
    [Popen] raises. *)
Definition script_missing : World := {|
  jobs_file := None;
  jobs_io_error := false;
  script_exists := false;
  popen := None
|}.

Definition launch_raises : World := {|
  jobs_file := None;
  jobs_io_error := false;
  script_exists := true;
  popen := None
|}.

(** A trigger whose [min_samples_for_evaluation] was set to 0, and a
    metrics dict without keys. *)
Definition no_minimum : RetrainingTrigger := {|
  performance_threshold := performance_threshold init;
  drift_threshold := drift_threshold init;
  min_samples_for_evaluation := 0;
  retraining_history := [];
  last_retraining := None;
  min_retraining_interval_hours := min_retraining_interval_hours init
|}.

Definition no_metrics : MetricsInfo := {|
  success_rate_percent := None;
  total_api_calls := None;
  failed_responses := None;
  avg_response_time_seconds := None
|}.

(** Stand-ins for the renderings, to run examples with. *)
Definition example_format (x : Q) (spec : string) : string := spec.
Definition example_strftime (t : Z) (spec : string) : string := spec.

Section WithFormat.

(** [format(x, spec)], the rendering of a number inside an f-string, and
    [datetime.strftime]. *)
Variable format : Q → string → string.
Variable strftime : Z → string → string.

(** The reason each check appends: the four f-strings. *)
Definition performance_reason (success_rate threshold : Q) : string :=
  "Performance below threshold: " +:+ format success_rate ".2%"
  +:+ " < " +:+ format threshold ".2%".

Definition drift_reason (drift_score : Q) : string :=
  "Significant data drift detected: " +:+ format drift_score ".3f".

Definition error_rate_reason (error_rate : Q) : string :=
  "High error rate: " +:+ format error_rate ".2%".

Definition response_time_reason (avg_response_time : Q) : string :=
  "Response time degraded: " +:+ format avg_response_time ".2f" +:+ "s".

(** [RetrainingTrigger.evaluate_retraining_need].  [None] is the
    [ZeroDivisionError] of [failed_responses / total_calls]. *)
Definition evaluate_retraining_need (self : RetrainingTrigger) (now : Z)
    (metrics : MetricsInfo) (drift_info : DriftInfo)
  : option (Decision * RetrainingTrigger) :=
  if too_soon self now then
    Some ({|
      should_retrain := false;
      reasons := ["Too soon since last retraining"%string];
      time_since_last_hours := (λ last, hours_since last now) <$> last_retraining self;
      timestamp := None;
      metrics_evaluated := None
    |}, self)
  else
    (* Check 1: performance degradation *)
    let success_rate := success_rate_of metrics in
    let '(should_retrain1, reasons1) :=
      if Py.Qltb success_rate (performance_threshold self)
      then (true, [performance_reason success_rate (performance_threshold self)])
      else (false, []) in
    (* Check 2: data drift detected *)
    let '(should_retrain2, reasons2) :=
      if default false (drift_detected drift_info) then
        let drift_score := default 0%Q (drift_score drift_info) in
        if Py.Qgtb drift_score (drift_threshold self)
        then (true, reasons1 ++ [drift_reason drift_score])
        else (should_retrain1, reasons1)
      else (should_retrain1, reasons1) in
    (* Check 3: high error rate *)
    let total_calls := default 0 (total_api_calls metrics) in
    let failed := default 0 (failed_responses metrics) in
    check3 ←
      (if min_samples_for_evaluation self <=? total_calls then
         if total_calls =? 0 then None
         else
           let error_rate := (inject_Z failed / inject_Z total_calls)%Q in
           if Py.Qgtb error_rate (15 # 100)
           then Some (true, reasons2 ++ [error_rate_reason error_rate])
           else Some (should_retrain2, reasons2)
       else Some (should_retrain2, reasons2));
    let '(should_retrain3, reasons3) := check3 in
    (* Check 4: response time degradation *)
    let avg_response_time := default 0%Q (avg_response_time_seconds metrics) in
    let '(should_retrain4, reasons4) :=
      if Py.Qgtb avg_response_time 5
      then (true, reasons3 ++ [response_time_reason avg_response_time])
      else (should_retrain3, reasons3) in
    let result := {|
      should_retrain := should_retrain4;
      reasons := reasons4;
      time_since_last_hours := None;
      timestamp := Some now;
      metrics_evaluated := Some {|
        ev_success_rate := success_rate;
        ev_drift_score := default 0%Q (drift_score drift_info);
        ev_error_rate :=
          if 0 <? total_calls then (inject_Z failed / inject_Z total_calls)%Q else 0%Q;
        ev_avg_response_time := avg_response_time
      |}
    |} in
    Some (result,
          if should_retrain4 then _record_retraining_event self result else self).

(** [RetrainingTrigger.trigger_retraining_pipeline]: the value returned,
    the trigger and the world after the call. *)
Definition trigger_retraining_pipeline (self : RetrainingTrigger) (w : World) (now : Z)
    (reason : string) : bool * RetrainingTrigger * World :=
  let retraining_job := {|
    job_id := ("retrain_" +:+ strftime now "%Y%m%d_%H%M%S")%string;
    triggered_at := now;
    job_reason := reason;
    status := "initiated";
    steps := ["data_collection"; "preprocessing"; "training"; "validation";
              "deployment"]%string
  |} in
  let w1 := _save_retraining_job w retraining_job in
  let launched : option unit :=
    if script_exists w1
    then _ ← popen w1; Some ()     (* Popen may raise *)
    else Some ()                    (* warning logged, nothing executed *)
  in
  match launched with
  | Some _ =>
      (true,
       {|
         performance_threshold := performance_threshold self;
         drift_threshold := drift_threshold self;
         min_samples_for_evaluation := min_samples_for_evaluation self;
         retraining_history := retraining_history self;
         last_retraining := Some now;
         min_retraining_interval_hours := min_retraining_interval_hours self
       |},
       w1)
  | None => (false, self, w1)      (* except Exception: return False *)
  end.

End WithFormat.

(** *** Sequences of calls *)

(** The dict [detect_drift] returns, by the two keys
    [evaluate_retraining_need] reads from its [drift_info]. *)
Definition drift_info_of (result : Drift.DetectResult) : DriftInfo :=
  match result with
  | Drift.InsufficientData r =>
      {| drift_detected := Some (Drift.ins_drift_detected r); drift_score := None |}
  | Drift.Report r =>
      {| drift_detected := Some (Drift.drift_detected r);
         drift_score := Some (Drift.drift_score r) |}
  end.

(** One call on the trigger. *)
Inductive Op :=
| OpEvaluate (now : Z) (metrics : MetricsInfo) (drift_info : DriftInfo)
| OpTrigger (w : World) (now : Z) (reason : string).

(** The trigger after one call.  The [ZeroDivisionError] of an evaluation is
    raised before anything is assigned, and leaves the trigger as it was. *)
Definition step (format : Q → string → string) (strftime : Z → string → string)
    (self : RetrainingTrigger) (op : Op) : RetrainingTrigger :=
  match op with
  | OpEvaluate now metrics drift_info =>
      match evaluate_retraining_need format self now metrics drift_info with
      | Some (_, self') => self'
      | None => self
      end
  | OpTrigger w now reason => (trigger_retraining_pipeline strftime self w now reason).1.2
  end.

Definition run (format : Q → string → string) (strftime : Z → string → string)
    (self : RetrainingTrigger) (ops : list Op) : RetrainingTrigger :=
  foldl (step format strftime) self ops.

(** The dict returned by [get_retraining_status], with [last_retraining]
    as a datetime. *)
Record Status := {
  st_last_retraining : option Z;
  total_retraining_events : Z;
  recent_events : list Decision;
  st_performance_threshold : Q;
  st_drift_threshold : Q;
  st_min_retraining_interval_hours : Q
}.

(** [RetrainingTrigger.get_retraining_status] *)
Definition get_retraining_status (self : RetrainingTrigger) : Status := {|
  st_last_retraining := last_retraining self;
  total_retraining_events := Py.len (retraining_history self);
  recent_events := Py.slice_from (-5) (retraining_history self);
  st_performance_threshold := performance_threshold self;
  st_drift_threshold := drift_threshold self;
  st_min_retraining_interval_hours := min_retraining_interval_hours self
|}.

End Trigger.

(** ** alerts.py *)

Module Alerts.

(** A record written to the module's logger. *)
Inductive Level := ERROR | WARNING | INFO.

(** What [requests.post] does: a response with its [status_code], or an
    exception with its text [str(e)]. *)
Inductive Posted := Status (status_code : Z) | Raised (e : string).

Section WithData.

(** The payload under ['data'], which the manager only stores. *)
Variable Data : Type.

(** A notification dict. *)
Record Notification := {
  type : string;
  severity : string;
  message : string;
  timestamp : Z;
  data : Data
}.

(** [NotificationManager]'s attributes. *)
Record NotificationManager := {
  notification_history : list Notification;
  email_enabled : bool;
  slack_enabled : bool;
  slack_webhook : string
}.

(** [NotificationManager.__init__], from the three environment
    variables already read. *)
Definition init (email_enabled slack_enabled : bool) (slack_webhook : string)
  : NotificationManager := {|
  notification_history := [];
  email_enabled := email_enabled;
  slack_enabled := slack_enabled;
  slack_webhook := slack_webhook
|}.

(** [requests.post(webhook, json=..., timeout=5)] *)
Variable post : string → string → Posted.

(** [NotificationManager._send_email] *)
Definition _send_email (n : Notification) : list (Level * string) :=
  [(INFO, ("📧 Email notification would be sent: " +:+ type n)%string)].

(** [NotificationManager._send_slack], where [import requests] finds the
    module. *)
Definition _send_slack (self : NotificationManager) (n : Notification)
  : list (Level * string) :=
  if bool_decide (slack_webhook self = ""%string) then []
  else
    match post (slack_webhook self) (message n) with
    | Status 200 => [(INFO, ("💬 Slack notification sent: " +:+ type n)%string)]
    | Status status_code =>
        [(ERROR, ("Failed to send Slack notification: " +:+ pretty status_code)%string)]
    | Raised e => [(ERROR, ("Slack notification error: " +:+ e)%string)]
    end.

(** [NotificationManager._dispatch_notification]: the manager after the
    call and the records logged. *)
Definition _dispatch_notification (self : NotificationManager) (n : Notification)
  : NotificationManager * list (Level * string) :=
  let appended := notification_history self ++ [n] in
  let history :=
    if 1000 <? Py.len appended then Py.slice_from (-1000) appended else appended in
  let self' := {|
    notification_history := history;
    email_enabled := email_enabled self;
    slack_enabled := slack_enabled self;
    slack_webhook := slack_webhook self
  |} in
  let level :=
    if bool_decide (severity n = "error"%string) then ERROR
    else if bool_decide (severity n = "warning"%string) then WARNING
    else INFO in
  (self',
   [(level, message n)]
   ++ (if email_enabled self' then _send_email n else [])
   ++ (if slack_enabled self' && negb (bool_decide (slack_webhook self' = ""%string))
       then _send_slack self' n else [])).

(** The manager after a sequence of dispatches. *)
Definition dispatch_all (self : NotificationManager) (ns : list Notification)
  : NotificationManager :=
  foldl (λ m n, (_dispatch_notification m n).1) self ns.

(** [NotificationManager.get_notification_history] *)
Definition get_notification_history (self : NotificationManager) (limit : Z)
  : list Notification :=
  Py.slice_from (- limit) (notification_history self).

(** The dict returned by [get_notification_stats]. *)
Record NotificationStats := {
  total_notifications : Z;
  by_type : gmap string Z;
  by_severity : gmap string Z
}.

(** [NotificationManager.get_notification_stats] *)
Definition get_notification_stats (self : NotificationManager) : NotificationStats :=
  match notification_history self with
  | [] => {| total_notifications := 0; by_type := ∅; by_severity := ∅ |}
  | _ =>
      let counts :=
        foldl (λ (acc : gmap string Z * gmap string Z) notif,
                 (<[type notif := default 0 (acc.1 !! type notif) + 1]> acc.1,
                  <[severity notif := default 0 (acc.2 !! severity notif) + 1]> acc.2))
              (∅, ∅) (notification_history self) in
      {| total_notifications := Py.len (notification_history self);
         by_type := counts.1;
         by_severity := counts.2 |}
  end.

(** The message of each kind of alert, a function of its payload. *)
Variable _format_drift_message : Data → string.
Variable _format_retraining_message : Data → string.
Variable _format_performance_message : Data → string.
Variable deployment_message : Data → string.

(** [NotificationManager.send_drift_alert] *)
Definition send_drift_alert (self : NotificationManager) (now : Z) (drift_info : Data)
  : NotificationManager * list (Level * string) :=
  _dispatch_notification self {|
    type := "drift_alert"; severity := "warning";
    message := _format_drift_message drift_info;
    timestamp := now; data := drift_info
  |}.

(** [NotificationManager.send_retraining_alert] *)
Definition send_retraining_alert (self : NotificationManager) (now : Z)
    (retraining_info : Data) : NotificationManager * list (Level * string) :=
  _dispatch_notification self {|
    type := "retraining_alert"; severity := "info";
    message := _format_retraining_message retraining_info;
    timestamp := now; data := retraining_info
  |}.

(** [NotificationManager.send_performance_alert] *)
Definition send_performance_alert (self : NotificationManager) (now : Z) (metrics : Data)
  : NotificationManager * list (Level * string) :=
  _dispatch_notification self {|
    type := "performance_alert"; severity := "error";
    message := _format_performance_message metrics;
    timestamp := now; data := metrics
  |}.

(** [NotificationManager.send_deployment_success] *)
Definition send_deployment_success (self : NotificationManager) (now : Z)
    (deployment_info : Data) : NotificationManager * list (Level * string) :=
  _dispatch_notification self {|
    type := "deployment_success"; severity := "info";
    message := deployment_message deployment_info;
    timestamp := now; data := deployment_info
  |}.

End WithData.

(** *** Inputs of the examples *)

(** A webhook that cannot be reached. *)
Definition no_post (url body : string) : Posted := Raised "connection refused".

(** 10000 notifications, told apart by their timestamps. *)
Definition ten_thousand : list (Notification unit) :=
  map (λ i, {| type := "drift_alert"; severity := "warning"; message := "drift";
               timestamp := Z.of_nat i; data := () |}) (seq 0 (Z.to_nat 10000)).

End Alerts.

(** ** retrain_model.py *)

Module Pipeline.

(** What [rag.chat(query, ...)] does: it raises, or it returns a dict whose
    ['answer'] is truthy or not. *)
Inductive ChatOutcome :=
| ChatRaises
| ChatAnswer (truthy : bool).

(** What the pipeline finds around it. *)
Record World := {
  (** [pull_latest_data]: the vector store can be opened and listed *)
  pull_ok : bool;
  (** [retrain_model]: [PropBotRAG()] can be built *)
  retrain_ok : bool;
  (** [validate_new_model]: [PropBotRAG()] can be built *)
  rag_available : bool;
  chat : string → ChatOutcome;
  (** the metrics collector of the process, and the clock, when
      [compare_with_baseline] reads them *)
  collector : Metrics.MetricsCollector;
  compare_time : Z
}.

Definition test_queries : list string :=
  [ "Show me properties in Back Bay";
    "What is the crime rate in Roxbury?";
    "Find 3 bedroom homes under 700k" ]%string.

(** [ModelRetrainingPipeline.pull_latest_data] and [retrain_model]: [True]
    unless something in their [try] raises. *)
Definition pull_latest_data (w : World) : bool := pull_ok w.
Definition retrain_model (w : World) : bool := retrain_ok w.

(** The counter [successful] after the loop over [test_queries]. *)
Definition successful_queries (w : World) : Z :=
  foldl (λ successful query,
           match chat w query with
           | ChatAnswer true => successful + 1
           | _ => successful
           end) 0 test_queries.

(** [ModelRetrainingPipeline.validate_new_model] *)
Definition validate_new_model (w : World) : bool :=
  if rag_available w then
    let validation_score :=
      (inject_Z (successful_queries w) / inject_Z (Py.len test_queries) * 100)%Q in
    Py.Qgtb validation_score 80
  else false.

(** [ModelRetrainingPipeline.compare_with_baseline] *)
Definition compare_with_baseline (w : World) : bool :=
  let current_metrics := Metrics.get_metrics (collector w) (compare_time w) in
  Py.Qltb (Metrics.success_rate_percent current_metrics) 95.

(** [ModelRetrainingPipeline.deploy_new_model]: it only formats and logs a
    command. *)
Definition deploy_new_model (w : World) : bool := true.

(** The calls the pipeline makes on the notification manager. *)
Inductive Sent :=
| RetrainingAlert
| DeploymentSuccess.

(** [ModelRetrainingPipeline.run_full_pipeline]: the value returned and the
    notifications sent, in order. *)
Definition run_full_pipeline (w : World) : bool * list Sent :=
  let sent := [RetrainingAlert] in
  if negb (pull_latest_data w) then (false, sent)
  else if negb (retrain_model w) then (false, sent)
  else if negb (validate_new_model w) then (false, sent)
  else
    let should_deploy := compare_with_baseline w in
    if should_deploy then
      if deploy_new_model w then (true, sent ++ [DeploymentSuccess])
      else (false, sent)
    else (true, sent).


End Pipeline.

(** * Properties *)

(** ** Facts about the building blocks *)

Module PyFacts.

Lemma Qltb_lt (x y : Q) : Py.Qltb x y = true ↔ (x < y)%Q.
Proof.
  unfold Py.Qltb. rewrite negb_true_iff, <- not_true_iff_false, Qle_bool_iff.
  split; [apply Qnot_le_lt | apply Qlt_not_le].
Qed.

Lemma Qltb_ge (x y : Q) : Py.Qltb x y = false ↔ (y <= x)%Q.
Proof.
  unfold Py.Qltb. rewrite negb_false_iff. apply Qle_bool_iff.
Qed.

(** Rounding to the nearest integer moves a number by at most one half. *)
Lemma round_half_even_near (x : Q) :
  (Qabs (inject_Z (Py.round_half_even x) - x) <= 1 # 2)%Q.
Proof.
  unfold Py.round_half_even.
  pose proof (Qfloor_le x) as Hlo. pose proof (Qlt_floor x) as Hhi.
  rewrite inject_Z_plus in Hhi. change (inject_Z 1) with 1%Q in Hhi.
  assert (Hup : (Qabs (inject_Z (Qfloor x + 1) - x) <= 1 # 2)%Q
                ∨ (x - inject_Z (Qfloor x) < 1 # 2)%Q).
  { destruct (Qlt_le_dec (x - inject_Z (Qfloor x)) (1 # 2)) as [Hlt|Hge]; [by right|left].
    rewrite inject_Z_plus. change (inject_Z 1) with 1%Q.
    generalize dependent (inject_Z (Qfloor x)). intros f ? ? ?.
    apply Qabs_case; intros _; lra. }
  assert (Hdown : (Qabs (inject_Z (Qfloor x) - x) <= 1 # 2)%Q
                  ∨ (1 # 2 < x - inject_Z (Qfloor x))%Q).
  { destruct (Qlt_le_dec (1 # 2) (x - inject_Z (Qfloor x))) as [Hlt|Hge]; [by right|left].
    generalize dependent (inject_Z (Qfloor x)). intros f ? ? ? ?.
    apply Qabs_case; intros _; lra. }
  destruct (Py.Qltb (x - inject_Z (Qfloor x)) (1 # 2)) eqn:E1.
  { apply Qltb_lt in E1. destruct Hdown as [H|H]; [exact H | lra]. }
  apply Qltb_ge in E1.
  destruct (Py.Qltb (1 # 2) (x - inject_Z (Qfloor x))) eqn:E2.
  { destruct Hup as [H|H]; [exact H | lra]. }
  apply Qltb_ge in E2.
  destruct (Z.even (Qfloor x)).
  - destruct Hdown as [H|H]; [exact H | lra].
  - destruct Hup as [H|H]; [exact H | lra].
Qed.

Lemma scale_pos (n : nat) : (0 < inject_Z (10 ^ Z.of_nat n))%Q.
Proof.
  change 0%Q with (inject_Z 0). rewrite <- Zlt_Qlt.
  apply Z.pow_pos_nonneg; lia.
Qed.


#[export] Instance Qltb_proper : Proper (Qeq ==> Qeq ==> eq) Py.Qltb.
Proof. intros x x' Hx y y' Hy. unfold Py.Qltb. by rewrite Hx, Hy. Qed.

#[export] Instance round_half_even_proper : Proper (Qeq ==> eq) Py.round_half_even.
Proof.
  intros x y Hxy. unfold Py.round_half_even. cbv zeta.
  rewrite (Qfloor_comp _ _ Hxy).
  assert (Hr : (x - inject_Z (Qfloor y) == y - inject_Z (Qfloor y))%Q) by (by rewrite Hxy).
  rewrite (Qltb_proper _ _ Hr _ _ (Qeq_refl _)).
  by rewrite (Qltb_proper _ _ (Qeq_refl _) _ _ Hr).
Qed.

#[export] Instance round_proper : Proper (Qeq ==> eq ==> Qeq) Py.round.
Proof.
  intros x y Hxy n ? <-. unfold Py.round. cbv zeta.
  assert (Hs : (x * inject_Z (10 ^ Z.of_nat n) == y * inject_Z (10 ^ Z.of_nat n))%Q)
    by (by rewrite Hxy).
  by rewrite Hs.
Qed.

Lemma round_0 (n : nat) : (Py.round 0 n == 0)%Q.
Proof.
  unfold Py.round.
  change (0 * inject_Z (10 ^ Z.of_nat n))%Q with 0%Q.
  change (Py.round_half_even 0) with 0.
  unfold Qdiv. apply Qmult_0_l.
Qed.

Lemma Qgtb_gt (x y : Q) : Py.Qgtb x y = true ↔ (y < x)%Q.
Proof. apply Qltb_lt. Qed.

Lemma sumQ_snoc (xs : list Q) (x : Q) : Py.sumQ (xs ++ [x]) = (Py.sumQ xs + x)%Q.
Proof. unfold Py.sumQ. by rewrite foldl_app. Qed.

Lemma sumQ_zero (xs : list Q) : Forall (λ x, x == 0)%Q xs → (Py.sumQ xs == 0)%Q.
Proof.
  induction xs as [|x xs IH] using rev_ind; intros Hxs; [reflexivity|].
  apply Forall_app in Hxs as [Hxs Hx]. apply Forall_inv in Hx. simpl in Hx.
  rewrite sumQ_snoc, (IH Hxs), Hx. reflexivity.
Qed.

Lemma sumQ_nonneg (xs : list Q) : Forall (λ x, 0 <= x)%Q xs → (0 <= Py.sumQ xs)%Q.
Proof.
  induction xs as [|x xs IH] using rev_ind; intros Hxs; [apply Qle_refl|].
  apply Forall_app in Hxs as [Hxs Hx]. apply Forall_inv in Hx. simpl in Hx.
  rewrite sumQ_snoc. specialize (IH Hxs). lra.
Qed.

Lemma min_one_nonneg (x : Q) : (0 <= x)%Q → (0 <= Py.min x 1)%Q.
Proof. intros Hx. unfold Py.min. destruct (Py.Qltb 1 x); [lra | exact Hx]. Qed.

Lemma min_one_zero (x : Q) : (x == 0)%Q → (Py.min x 1 == 0)%Q.
Proof.
  intros Hx. unfold Py.min. destruct (Py.Qltb 1 x) eqn:E; [|exact Hx].
  apply Qltb_lt in E. lra.
Qed.

Lemma len_app {A} (xs ys : list A) : Py.len (xs ++ ys) = Py.len xs + Py.len ys.
Proof. unfold Py.len. rewrite length_app. lia. Qed.


(** [xs[-n:]] keeps the last [n] elements when [0 < n]. *)
Lemma slice_from_neg {A} (n : Z) (xs : list A) :
  0 < n → Py.slice_from (- n) xs = drop (length xs - Z.to_nat n) xs.
Proof.
  intros Hn. unfold Py.slice_from, Py.len.
  destruct (0 <=? - n) eqn:E; [apply Z.leb_le in E; lia|].
  f_equal. lia.
Qed.

(** Appending to the last [w] elements and keeping the last [w] of that
    is keeping the last [w] of the whole. *)
Lemma keep_last_snoc {A} (w : nat) (xs : list A) (x : A) :
  (1 ≤ w)%nat →
  drop (length (drop (length xs - w) xs ++ [x]) - w) (drop (length xs - w) xs ++ [x])
  = drop (length (xs ++ [x]) - w) (xs ++ [x]).
Proof.
  intros Hw. rewrite !length_app, length_drop. simpl.
  destruct (decide (length xs < w)%nat) as [Hlt|Hge].
  - replace (length xs - w)%nat with 0%nat by lia.
    rewrite drop_0. f_equal. lia.
  - rewrite (drop_app_le xs) by lia.
    rewrite (drop_app_le (drop _ xs)) by (rewrite length_drop; lia).
    rewrite drop_drop. do 2 f_equal. lia.
Qed.

(** The guarded truncation of the bounded logs:
    [if len(xs) > w: xs = xs[-w:]]. *)
Lemma truncate_last {A} (w : Z) (xs : list A) :
  1 <= w →
  (if w <? Py.len xs then Py.slice_from (- w) xs else xs)
  = drop (length xs - Z.to_nat w) xs.
Proof.
  intros Hw. destruct (w <? Py.len xs) eqn:E.
  - apply slice_from_neg. lia.
  - apply Z.ltb_ge in E. unfold Py.len in E.
    replace (length xs - Z.to_nat w)%nat with 0%nat by lia. done.
Qed.

End PyFacts.

(** ** metrics.py *)

Module MetricsProofs.
Import Metrics.

Lemma record_api_call_counters (m : MetricsCollector) (c : Call) :
  api_calls (record_api_call m c) = api_calls m + 1
  ∧ chromadb_queries (record_api_call m c) = chromadb_queries m + 1
  ∧ successful_responses (record_api_call m c) + failed_responses (record_api_call m c)
    = successful_responses m + failed_responses m + 1.
Proof. destruct c as [[] ? ? ?]; simpl; lia. Qed.

Lemma record_api_call_consistent (m : MetricsCollector) (c : Call) :
  counters_consistent m → counters_consistent (record_api_call m c).
Proof.
  unfold counters_consistent.
  pose proof (record_api_call_counters m c). lia.
Qed.

Lemma record_all_consistent (cs : list Call) (m : MetricsCollector) :
  counters_consistent m → counters_consistent (record_all m cs).
Proof.
  revert m. induction cs as [|c cs IH]; intros m Hm; [exact Hm|].
  apply IH, record_api_call_consistent, Hm.
Qed.

(** What a sequence of calls adds to the three outcome counters. *)
Lemma record_all_counts (cs : list Call) (m : MetricsCollector) :
  api_calls (record_all m cs) = api_calls m + Py.len cs
  ∧ successful_responses (record_all m cs) = successful_responses m + successes cs
  ∧ failed_responses (record_all m cs) = failed_responses m + failures cs.
Proof.
  revert m. induction cs as [|c cs IH]; intros m.
  - unfold successes, failures, Py.len. simpl. lia.
  - unfold record_all in *. simpl foldl.
    destruct (IH (record_api_call m c)) as (Ha & Hs & Hf).
    rewrite Ha, Hs, Hf. clear IH Ha Hs Hf.
    unfold successes, failures, Py.len.
    rewrite !filter_cons. destruct c as [[] ? ? ?]; simpl; lia.
Qed.

Lemma successes_failures (cs : list Call) : successes cs + failures cs = Py.len cs.
Proof.
  pose proof (record_all_counts cs (init 0)) as (Ha & Hs & Hf).
  pose proof (record_all_consistent cs (init 0)) as [Hc _]; [split; reflexivity|].
  simpl in *. lia.
Qed.

(** The rate [get_metrics] rounds, for a collector that started empty. *)
Lemma success_rate_exact (now : Z) (cs : list Call) :
  let m := record_all (init now) cs in
  api_calls m = successes cs + failures cs
  ∧ successful_responses m = successes cs.
Proof.
  pose proof (record_all_counts cs (init now)) as (Ha & Hs & _).
  pose proof (successes_failures cs). simpl in *. lia.
Qed.

(** C10: after any sequence of [record_api_call]s on a fresh collector,
    [successful_responses + failed_responses = api_calls] and
    [chromadb_queries = api_calls]; every single call adds one to
    [api_calls], one to [chromadb_queries], and one to exactly one of
    [successful_responses] and [failed_responses]. *)
Theorem C10_counters_consistent (now : Z) (cs : list Call) (m0 : MetricsCollector)
    (c : Call) :
  let m := record_all (init now) cs in
  (successful_responses m + failed_responses m = api_calls m
   ∧ chromadb_queries m = api_calls m)
  ∧ api_calls (record_api_call m0 c) = api_calls m0 + 1
  ∧ chromadb_queries (record_api_call m0 c) = chromadb_queries m0 + 1
  ∧ ((successful_responses (record_api_call m0 c) = successful_responses m0 + 1
      ∧ failed_responses (record_api_call m0 c) = failed_responses m0)
     ∨ (successful_responses (record_api_call m0 c) = successful_responses m0
        ∧ failed_responses (record_api_call m0 c) = failed_responses m0 + 1)).
Proof.
  intros m. split; [apply record_all_consistent; split; reflexivity|].
  destruct c as [[] ? ? ?]; simpl; intuition lia.
Qed.

End MetricsProofs.

(** ** metrics.py, the success rate in binary64 *)

Module Metrics64Proofs.
Import PrimFloat Metrics.

(** A quotient of ints between 0 and 1 does not raise. *)
Lemma truediv_part (a b : Z) :
  0 <= a <= b → 0 < b → Py64.truediv a b = Some (Py64.div_int a b).
Proof.
  intros Ha Hb. unfold Py64.truediv.
  destruct (b =? 0) eqn:E; [apply Z.eqb_eq in E; lia|].
  destruct (Qle_bool _ _) eqn:E'; [|reflexivity].
  exfalso. apply Qle_bool_iff in E'.
  assert (Hb' : (0 < inject_Z b)%Q) by (rewrite (Zlt_Qlt 0 b) in Hb; exact Hb).
  assert (H0 : (0 <= inject_Z a / inject_Z b)%Q).
  { apply Qle_shift_div_l; [exact Hb'|]. rewrite Qmult_0_l.
    change 0%Q with (inject_Z 0). rewrite <- Zle_Qle. lia. }
  assert (H1 : (inject_Z a / inject_Z b <= 1)%Q).
  { apply Qle_shift_div_r; [exact Hb'|]. rewrite Qmult_1_l.
    rewrite <- Zle_Qle. lia. }
  rewrite (Qabs_pos _ H0) in E'.
  assert (Ht : (1 < inject_Z Py64.overflow_threshold)%Q) by (by vm_compute).
  apply (Qlt_not_le _ _ Ht). eapply Qle_trans; [exact E'|exact H1].
Qed.

(** C2, as the code has it: after any sequence of [record_api_call]s with
    [N] successes and [M] failures on a fresh collector, computing
    [success_rate_percent] does not raise.  When [N+M > 0] it is
    [round(x, 2)] of the double [x = N/(N+M)*100], each operation rounded to
    binary64; when [N+M = 0] nothing is divided and it is zero. *)
Theorem C2_success_rate_binary64 (now : Z) (cs : list Call) :
  let N := successes cs in
  let M := failures cs in
  Metrics64.success_rate_percent (record_all (init now) cs)
  = Some (if 0 <? N + M
          then Py64.round (Py64.div_int N (N + M) * 100)%float 2
          else 0%float).
Proof.
  intros N M.
  destruct (MetricsProofs.success_rate_exact now cs) as [Ha Hs]. fold N M in Ha, Hs.
  unfold Metrics64.success_rate_percent. rewrite Ha, Hs.
  destruct (0 <? N + M) eqn:E; [|reflexivity].
  apply Z.ltb_lt in E.
  assert (HN : 0 <= N) by apply Nat2Z.is_nonneg.
  assert (HM : 0 <= M) by apply Nat2Z.is_nonneg.
  rewrite truediv_part by lia. reflexivity.
Qed.

(** C2, as stated, fails: after one success and two failures the snapshot
    holds the double 33.33, whose value is not 100*1/(1+2), and which is not
    the double that [100*N/(N+M)] evaluates to either. *)
Lemma C2_rate_differs_from_quotient :
  let N := successes one_in_three in
  let M := failures one_in_three in
  Metrics64.success_rate_percent (record_all (init 0) one_in_three) = Some 33.33%float
  ∧ (∀ q, Py64.value 33.33%float = Some q
          → ¬ (q == 100 * inject_Z N / inject_Z (N + M))%Q)
  ∧ Py64.truediv (100 * N) (N + M) = Some 33.333333333333336%float
  ∧ (33.33 =? 33.333333333333336)%float = false.
Proof.
  split; [by vm_compute|]. split; [|split; by vm_compute].
  intros q Hq. vm_compute in Hq. injection Hq as <-. by vm_compute.
Qed.

(** The rate is the rounding of the double, not of the quotient: for 23
    successes in 160 calls [100*N/(N+M)] is 14.375, which rounds half to
    even to 14.38, while the double [23/160*100] lies below 14.375 and the
    snapshot holds 14.37. *)
Example rate_23_of_160 :
  Metrics64.success_rate_percent (record_all (init 0) Metrics64.calls_23_of_160)
  = Some 14.37%float
  ∧ (Py64.div_int 23 160 * 100)%float = 14.374999999999998%float
  ∧ (Py.round (100 * 23 / 160) 2 == 1438 # 100)%Q.
Proof. repeat split; by vm_compute. Qed.

(** For 49 successes in 160 calls [100*N/(N+M)] is 30.625, which rounds half
    to even to 30.62, while the double lies above it and the snapshot holds
    30.63. *)
Example rate_49_of_160 :
  Metrics64.success_rate_percent (record_all (init 0) Metrics64.calls_49_of_160)
  = Some 30.63%float
  ∧ (Py64.div_int 49 160 * 100)%float = 30.625000000000004%float
  ∧ (Py.round (100 * 49 / 160) 2 == 3062 # 100)%Q.
Proof. repeat split; by vm_compute. Qed.

(** [round] on doubles at the values the interpreter documents. *)
Example round_examples :
  Py64.round 2.675 2 = 2.67%float
  ∧ Py64.round 0.125 2 = 0.12%float
  ∧ Py64.round (-0.125) 2 = (-0.12)%float
  ∧ Py64.round 0.5 0 = 0%float
  ∧ Py64.round 1.5 0 = 2%float
  ∧ Py64.round 94.995 2 = 95%float
  ∧ Py64.round (-0.001) 2 = (-0)%float
  ∧ Py64.round infinity 2 = infinity.
Proof. repeat split; by vm_compute. Qed.

End Metrics64Proofs.

(** ** drift_detector.py *)

Module DriftProofs.
Import Drift.

Lemma recorded_app (ops1 ops2 : list Op) :
  recorded (ops1 ++ ops2) = recorded ops1 ++ recorded ops2.
Proof. unfold recorded. apply omap_app. Qed.

(** *** The drift score *)

Lemma feature_score_zero (b c : Q) :
  (b == c)%Q → Forall (λ x, x == 0)%Q (feature_score b c).
Proof.
  intros Hbc. unfold feature_score.
  destruct (Py.Qgtb b 0); constructor; [|constructor].
  apply PyFacts.min_one_zero.
  assert (Hd : (c - b == 0)%Q) by (rewrite Hbc; ring).
  rewrite Hd. change (Qabs 0) with 0%Q. unfold Qdiv. apply Qmult_0_l.
Qed.

Lemma feature_score_nonneg (b c : Q) : Forall (λ x, 0 <= x)%Q (feature_score b c).
Proof.
  unfold feature_score.
  destruct (Py.Qgtb b 0) eqn:E; constructor; [|constructor].
  apply PyFacts.Qgtb_gt in E.
  apply PyFacts.min_one_nonneg, Qle_shift_div_l; [exact E|].
  rewrite Qmult_0_l. apply Qabs_nonneg.
Qed.

Lemma feature_score_length (b c : Q) : (length (feature_score b c) ≤ 1)%nat.
Proof. unfold feature_score. destruct (Py.Qgtb b 0); simpl; lia. Qed.

Lemma numerical_scores_zero (b c : Stats) :
  same_means b c → Forall (λ x, x == 0)%Q (numerical_scores b c).
Proof.
  intros (Hq & Hp & Hr). unfold numerical_scores.
  rewrite !Forall_app. auto using feature_score_zero.
Qed.

Lemma numerical_scores_nonneg (b c : Stats) :
  Forall (λ x, 0 <= x)%Q (numerical_scores b c).
Proof.
  unfold numerical_scores. rewrite !Forall_app. auto using feature_score_nonneg.
Qed.

Lemma numerical_scores_length (b c : Stats) : (length (numerical_scores b c) ≤ 3)%nat.
Proof.
  unfold numerical_scores. rewrite !length_app.
  pose proof (feature_score_length (avg_query_length b) (avg_query_length c)).
  pose proof (feature_score_length (avg_properties_returned b) (avg_properties_returned c)).
  pose proof (feature_score_length (avg_response_time b) (avg_response_time c)).
  lia.
Qed.

(** A histogram is at distance [0] from itself. *)
Lemma distribution_difference_same (dist : gmap string Z) :
  (_distribution_difference dist dist == 0)%Q.
Proof.
  unfold _distribution_difference.
  destruct ((sum_values dist =? 0) || (sum_values dist =? 0)); [reflexivity|].
  cbv zeta.
  assert (Hfold : ∀ X : gset string,
    (set_fold (λ key acc,
       acc + Qabs (norm_get dist (sum_values dist) key
                   - norm_get dist (sum_values dist) key))%Q 0%Q X == 0)%Q).
  { intros X.
    apply (set_fold_ind_L (λ r _, r == 0)%Q); [reflexivity|].
    intros key Y r _ Hr. rewrite Hr.
    assert (Hd : (norm_get dist (sum_values dist) key
                  - norm_get dist (sum_values dist) key == 0)%Q) by ring.
    rewrite Hd. reflexivity. }
  rewrite Hfold. reflexivity.
Qed.

(** An empty histogram on either side gives [0]. *)
Lemma distribution_difference_empty (dist1 dist2 : gmap string Z) :
  dist1 = ∅ ∨ dist2 = ∅ → _distribution_difference dist1 dist2 = 0%Q.
Proof.
  unfold _distribution_difference.
  intros [-> | ->]; unfold sum_values at 1 2; rewrite map_fold_empty; simpl;
    [done | by rewrite orb_true_r].
Qed.

(** The score is the mean of [scores]; the mean of no score is [0/0 = 0]. *)
Lemma calculate_drift_score_mean (b c : Stats) :
  (_calculate_drift_score b c == np_mean (drift_scores b c))%Q.
Proof.
  unfold _calculate_drift_score. by destruct (drift_scores b c).
Qed.

Lemma np_mean_snoc (xs : list Q) (x : Q) :
  (np_mean (xs ++ [x]) == (Py.sumQ xs + x) / inject_Z (Z.of_nat (length xs) + 1))%Q.
Proof.
  unfold np_mean, Py.len. rewrite PyFacts.sumQ_snoc, length_app. simpl.
  by rewrite Nat2Z.inj_add.
Qed.

Lemma len_succ_pos (n : nat) : (0 < inject_Z (Z.of_nat n + 1))%Q.
Proof. change 0%Q with (inject_Z 0). rewrite <- Zlt_Qlt. lia. Qed.

(** With equal means the numerical features add nothing: the score is [0]
    exactly when the query-type histograms are at distance [0]. *)
Lemma equal_means_score (b c : Stats) :
  same_means b c →
  (_calculate_drift_score b c == 0)%Q
  ↔ (_distribution_difference (query_type_distribution b) (query_type_distribution c) == 0)%Q.
Proof.
  intros Hmeans. rewrite calculate_drift_score_mean. unfold drift_scores. cbv zeta.
  pose proof (PyFacts.sumQ_zero _ (numerical_scores_zero b c Hmeans)) as Hsum.
  destruct (bool_decide (query_type_distribution b ≠ ∅)) eqn:Eb; simpl.
  1: destruct (bool_decide (query_type_distribution c ≠ ∅)) eqn:Ec; simpl.
  - rewrite np_mean_snoc, Hsum, Qplus_0_l.
    pose proof (len_succ_pos (length (numerical_scores b c))) as Hlen.
    set (t := _distribution_difference _ _). set (n := inject_Z _) in *.
    split; intros Ht.
    + assert (Heq : (t == t / n * n)%Q) by (field; lra). rewrite Heq, Ht. ring.
    + rewrite Ht. unfold Qdiv. apply Qmult_0_l.
  - apply bool_decide_eq_false in Ec.
    rewrite distribution_difference_empty by (right; by destruct (decide (query_type_distribution c = ∅))).
    unfold np_mean. rewrite Hsum. unfold Qdiv. rewrite Qmult_0_l. done.
  - apply bool_decide_eq_false in Eb.
    rewrite distribution_difference_empty by (left; by destruct (decide (query_type_distribution b = ∅))).
    unfold np_mean. rewrite Hsum. unfold Qdiv. rewrite Qmult_0_l. done.
Qed.

(** *** Histograms of a single type *)

Lemma Counter_fold_replicate (k : string) (n : nat) (m : gmap string Z) :
  foldl (λ m k, <[k := default 0 (m !! k) + 1]> m) m (replicate n k)
  = match n with
    | O => m
    | S _ => <[k := default 0 (m !! k) + Z.of_nat n]> m
    end.
Proof.
  revert m. induction n as [|n IH]; intros m; [done|].
  simpl replicate. simpl foldl. rewrite IH. destruct n as [|n].
  - done.
  - rewrite lookup_insert_eq, insert_insert_eq. simpl default. f_equal. lia.
Qed.

Lemma Counter_replicate (k : string) (n : nat) :
  Counter (replicate (S n) k) = {[ k := Z.of_nat (S n) ]}.
Proof.
  unfold Counter. rewrite Counter_fold_replicate, lookup_empty. done.
Qed.

Lemma uniform_types (type : string) (qs : list QueryData) :
  Forall (λ q, query_type q = Some type) qs →
  map (λ q, default "unknown"%string (query_type q)) qs = replicate (length qs) type.
Proof.
  induction 1 as [|q qs Hq _ IH]; [done|].
  simpl. by rewrite Hq, IH.
Qed.

(** Distinct types only: the two normalised histograms are disjoint. *)
Lemma search_price_check_distance :
  Qeq (_distribution_difference {[ "search"%string := 50 ]} {[ "price_check"%string := 50 ]})
      1.
Proof. by vm_compute. Qed.

(** The mean of non-negative scores and a last score of [1]. *)
Lemma np_mean_with_one (xs : list Q) (t : Q) :
  Forall (λ x, 0 <= x)%Q xs → (t == 1)%Q →
  (1 / inject_Z (Z.of_nat (length xs) + 1) <= np_mean (xs ++ [t]))%Q.
Proof.
  intros Hxs Ht. rewrite np_mean_snoc, Ht.
  pose proof (PyFacts.sumQ_nonneg xs Hxs) as Hsum.
  pose proof (len_succ_pos (length xs)) as Hlen.
  unfold Qdiv. apply Qmult_le_compat_r; [lra|].
  apply Qlt_le_weak, Qinv_lt_0_compat, Hlen.
Qed.

Lemma inv_len_ge (n k : nat) :
  (n ≤ k)%nat →
  (1 / inject_Z (Z.of_nat k + 1) <= 1 / inject_Z (Z.of_nat n + 1))%Q.
Proof.
  intros Hnk.
  pose proof (len_succ_pos n) as Hn. pose proof (len_succ_pos k) as Hk.
  assert (Hle : (inject_Z (Z.of_nat n + 1) <= inject_Z (Z.of_nat k + 1))%Q)
    by (rewrite <- Zle_Qle; lia).
  apply Qle_shift_div_l; [exact Hn|].
  assert (Heq : (1 / inject_Z (Z.of_nat k + 1) * inject_Z (Z.of_nat n + 1)
                 == inject_Z (Z.of_nat n + 1) / inject_Z (Z.of_nat k + 1))%Q)
    by (field; lra).
  rewrite Heq. apply Qle_shift_div_r; [exact Hk | lra].
Qed.

Section Detector.

Variable np_sqrt : Q → Q.

Local Abbreviation stats := (_calculate_statistics np_sqrt).
Local Abbreviation record_query := (record_query np_sqrt).
Local Abbreviation detect_drift := (detect_drift np_sqrt).
Local Abbreviation run := (run np_sqrt).

Lemma run_app (d : DriftDetector) (ops1 ops2 : list Op) :
  run d (ops1 ++ ops2) = run (run d ops1) ops2.
Proof. unfold Drift.run. apply foldl_app. Qed.

Lemma run_snoc (d : DriftDetector) (ops : list Op) (op : Op) :
  run d (ops ++ [op]) = step np_sqrt (run d ops) op.
Proof. by rewrite run_app. Qed.

(** *** One call *)

(** [record_query] keeps the last [window_size] records. *)
Lemma record_query_recent (d : DriftDetector) (now : Z) (q : QueryData) :
  1 <= window_size d →
  recent_queries (record_query d now q)
  = drop (length (recent_queries d ++ [set_timestamp q now]) - Z.to_nat (window_size d))
         (recent_queries d ++ [set_timestamp q now]).
Proof.
  intros Hw. unfold Drift.record_query. simpl.
  by apply PyFacts.truncate_last.
Qed.

Lemma record_query_config (d : DriftDetector) (now : Z) (q : QueryData) :
  window_size (record_query d now q) = window_size d
  ∧ drift_threshold (record_query d now q) = drift_threshold d
  ∧ drift_history (record_query d now q) = drift_history d.
Proof. done. Qed.

(** A baseline that is set survives [record_query]. *)
Lemma record_query_keeps_baseline (d : DriftDetector) (now : Z) (q : QueryData) (b : Stats) :
  baseline_stats d = Some b → baseline_stats (record_query d now q) = Some b.
Proof. intros Hb. unfold Drift.record_query. simpl. by rewrite Hb. Qed.

(** Too few records: [detect_drift] answers with the tagged dict and
    changes nothing. *)
Lemma detect_drift_insufficient (d : DriftDetector) (now : Z) :
  Py.len (recent_queries d) < 50 →
  detect_drift d now
  = (InsufficientData {|
       ins_drift_detected := false;
       ins_reason := "Insufficient data for drift detection";
       ins_samples := Py.len (recent_queries d)
     |}, d).
Proof.
  intros Hlen. unfold Drift.detect_drift.
  apply Z.ltb_lt in Hlen. by rewrite Hlen.
Qed.

(** [detect_drift] never touches the window or the configuration. *)
Lemma detect_drift_frame (d : DriftDetector) (now : Z) :
  window_size (detect_drift d now).2 = window_size d
  ∧ drift_threshold (detect_drift d now).2 = drift_threshold d
  ∧ recent_queries (detect_drift d now).2 = recent_queries d.
Proof.
  unfold Drift.detect_drift.
  by destruct (Py.len (recent_queries d) <? 50).
Qed.

(** A baseline that is set survives [detect_drift]. *)
Lemma detect_drift_keeps_baseline (d : DriftDetector) (now : Z) (b : Stats) :
  baseline_stats d = Some b → baseline_stats (detect_drift d now).2 = Some b.
Proof.
  intros Hb. unfold Drift.detect_drift.
  destruct (Py.len (recent_queries d) <? 50); simpl; by rewrite Hb.
Qed.

Lemma step_keeps_baseline (d : DriftDetector) (op : Op) (b : Stats) :
  baseline_stats d = Some b → baseline_stats (step np_sqrt d op) = Some b.
Proof.
  destruct op; [apply record_query_keeps_baseline | apply detect_drift_keeps_baseline].
Qed.

Lemma run_keeps_baseline (ops : list Op) (d : DriftDetector) (b : Stats) :
  baseline_stats d = Some b → baseline_stats (run d ops) = Some b.
Proof.
  revert d. induction ops as [|op ops IH]; intros d Hb; [exact Hb|].
  apply IH, step_keeps_baseline, Hb.
Qed.

(** *** Sequences of calls on a fresh detector *)

(** The window holds the last [window_size] records handed over. *)
Lemma run_window (w : Z) (th : Q) (ops : list Op) :
  1 <= w →
  let d := run (init w th) ops in
  window_size d = w ∧ drift_threshold d = th
  ∧ recent_queries d = drop (length (recorded ops) - Z.to_nat w) (recorded ops).
Proof.
  intros Hw. induction ops as [|op ops IH] using rev_ind; [done|].
  cbv zeta in *. rewrite run_snoc, recorded_app.
  destruct IH as (IHw & IHt & IHr).
  set (d := run (init w th) ops) in *.
  set (R := recorded ops) in *.
  destruct op as [now q|now].
  - change (step np_sqrt d (OpRecord now q)) with (record_query d now q).
    change (recorded [OpRecord now q]) with [set_timestamp q now].
    split; [exact IHw|]. split; [exact IHt|].
    rewrite record_query_recent by lia.
    rewrite IHw, IHr. apply PyFacts.keep_last_snoc. lia.
  - change (step np_sqrt d (OpDetect now)) with (detect_drift d now).2.
    change (recorded [OpDetect now]) with (@nil QueryData).
    destruct (detect_drift_frame d now) as (Hfw & Hft & Hfr).
    rewrite Hfw, Hft, Hfr, app_nil_r. done.
Qed.

(** The baseline is unset below 50 records and is the statistics of the
    first 50 records from then on. *)
Lemma run_baseline (w : Z) (th : Q) (ops : list Op) :
  50 <= w →
  baseline_stats (run (init w th) ops)
  = if (length (recorded ops) <? 50)%nat then None
    else Some (stats (take 50 (recorded ops))).
Proof.
  intros Hw. induction ops as [|op ops IH] using rev_ind; [done|].
  rewrite run_snoc.
  destruct (run_window w th ops) as (Hdw & _ & Hdr); [lia|].
  destruct (run_window w th (ops ++ [op])) as (_ & _ & Hdr'); [lia|].
  rewrite run_snoc in Hdr'.
  rewrite recorded_app in *.
  set (d := run (init w th) ops) in *.
  set (R := recorded ops) in *.
  destruct (length R <? 50)%nat eqn:E.
  - apply Nat.ltb_lt in E.
    assert (Hrecent : recent_queries d = R).
    { rewrite Hdr. replace (length R - Z.to_nat w)%nat with 0%nat by lia. done. }
    destruct op as [now q|now].
    + change (step np_sqrt d (OpRecord now q)) with (record_query d now q) in *.
      change (recorded [OpRecord now q]) with [set_timestamp q now] in *.
      rewrite length_app in *. simpl length in *.
      replace (length R + 1 - Z.to_nat w)%nat with 0%nat in Hdr' by lia.
      rewrite drop_0 in Hdr'.
      assert (Hb : baseline_stats (record_query d now q)
                   = if 50 <=? Py.len (recent_queries (record_query d now q))
                     then Some (stats (recent_queries (record_query d now q)))
                     else None).
      { unfold Drift.record_query. simpl. by rewrite IH. }
      rewrite Hb, Hdr'. unfold Py.len. rewrite length_app. simpl length.
      destruct (length R + 1 <? 50)%nat eqn:E'.
      * apply Nat.ltb_lt in E'.
        destruct (50 <=? Z.of_nat (length R + 1)) eqn:E''; [apply Z.leb_le in E''; lia|done].
      * apply Nat.ltb_ge in E'.
        destruct (50 <=? Z.of_nat (length R + 1)) eqn:E''; [|apply Z.leb_gt in E''; lia].
        rewrite take_ge by (rewrite length_app; simpl; lia). done.
    + change (step np_sqrt d (OpDetect now)) with (detect_drift d now).2.
      change (recorded [OpDetect now]) with (@nil QueryData).
      rewrite app_nil_r, detect_drift_insufficient by (rewrite Hrecent; unfold Py.len; lia).
      simpl. rewrite IH. by apply Nat.ltb_lt in E as ->.
  - apply Nat.ltb_ge in E.
    rewrite (step_keeps_baseline d op _ IH).
    destruct op as [now q|now].
    + change (recorded [OpRecord now q]) with [set_timestamp q now].
      rewrite length_app. simpl length.
      destruct (length R + 1 <? 50)%nat eqn:E'; [apply Nat.ltb_lt in E'; lia|].
      by rewrite take_app_le by lia.
    + change (recorded [OpDetect now]) with (@nil QueryData).
      rewrite app_nil_r. by apply Nat.ltb_ge in E as ->.
Qed.

(** On a fresh detector whose window holds 50 records, the window is
    what was recorded, up to 50 records. *)
Lemma run_recent_small (w : Z) (th : Q) (ops : list Op) :
  50 <= w → (length (recorded ops) ≤ 50)%nat →
  recent_queries (run (init w th) ops) = recorded ops.
Proof.
  intros Hw Hn. destruct (run_window w th ops) as (_ & _ & ->); [lia|].
  replace (length (recorded ops) - Z.to_nat w)%nat with 0%nat by lia. done.
Qed.

(** With 50 records or more, [detect_drift] returns a report. *)
Lemma detect_drift_report (d : DriftDetector) (now : Z) :
  50 <= Py.len (recent_queries d) →
  let baseline :=
    default (stats (take 50 (recent_queries d))) (baseline_stats d) in
  let current := stats (drop (length (recent_queries d) - 50) (recent_queries d)) in
  (detect_drift d now).1
  = Report {|
      drift_detected :=
        Py.Qgtb (_calculate_drift_score baseline current) (drift_threshold d);
      drift_score := Py.round (_calculate_drift_score baseline current) 3;
      threshold := drift_threshold d;
      rep_baseline_stats := baseline;
      rep_current_stats := current;
      rep_timestamp := now
    |}.
Proof.
  intros Hlen. unfold Drift.detect_drift.
  apply Z.ltb_ge in Hlen. rewrite Hlen. cbv zeta.
  rewrite (PyFacts.slice_from_neg 50) by lia.
  by destruct (baseline_stats d).
Qed.

(** C8: in every state with fewer than 50 records [detect_drift] returns
    the tagged insufficient-data dict, with [drift_detected = False] and
    the number of samples, and changes nothing; in every state with 50
    records (or more) it returns a report with [drift_detected],
    [drift_score], [threshold], [baseline_stats] and [current_stats].  The
    records of the state are the records handed over: on a fresh detector
    whose window holds 50 records, up to 50 recorded features are all in
    the window. *)
Theorem C8_detect_insufficient_or_report (d : DriftDetector) (now : Z)
    (w : Z) (th : Q) (ops : list Op) :
  (Py.len (recent_queries d) < 50 →
   detect_drift d now
   = (InsufficientData {|
        ins_drift_detected := false;
        ins_reason := "Insufficient data for drift detection";
        ins_samples := Py.len (recent_queries d)
      |}, d))
  ∧ (50 <= Py.len (recent_queries d) →
     ∃ r : DriftReport,
       (detect_drift d now).1 = Report r
       ∧ rep_baseline_stats r
         = default (stats (take 50 (recent_queries d))) (baseline_stats d)
       ∧ rep_current_stats r
         = stats (drop (length (recent_queries d) - 50) (recent_queries d))
       ∧ threshold r = drift_threshold d
       ∧ drift_score r
         = Py.round (_calculate_drift_score (rep_baseline_stats r) (rep_current_stats r)) 3
       ∧ drift_detected r
         = Py.Qgtb (_calculate_drift_score (rep_baseline_stats r) (rep_current_stats r))
                   (threshold r))
  ∧ (50 <= w → (length (recorded ops) ≤ 50)%nat →
     recent_queries (run (init w th) ops) = recorded ops).
Proof.
  split; [apply detect_drift_insufficient|].
  split; [|apply run_recent_small].
  intros Hlen. eexists. split; [by apply detect_drift_report|]. done.
Qed.

(** C3: on a detector whose window holds at least 50 records, the
    baseline is unset while fewer than 50 records have been recorded, is
    the statistics of the first 50 records from the 50th on, and no later
    [record_query] or [detect_drift] changes it. *)
Theorem C3_baseline_set_once (w : Z) (th : Q) (ops later : list Op) :
  50 <= w →
  baseline_stats (run (init w th) ops)
  = (if (length (recorded ops) <? 50)%nat then None
     else Some (stats (take 50 (recorded ops))))
  ∧ ((50 ≤ length (recorded ops))%nat →
     baseline_stats (run (init w th) (ops ++ later))
     = baseline_stats (run (init w th) ops)).
Proof.
  intros Hw. split; [by apply run_baseline|].
  intros Hn. rewrite run_app.
  assert (Hset : baseline_stats (run (init w th) ops)
                 = Some (stats (take 50 (recorded ops)))).
  { rewrite run_baseline by done. by apply Nat.ltb_ge in Hn as ->. }
  rewrite Hset. by apply run_keeps_baseline.
Qed.

(** C1, as the code has it: when the three means of two record sets are
    the same, the numerical features contribute only zeros, and the drift
    score is [0] exactly when the query-type histograms of the two sets
    are at distance [0]; it is [0] in particular when the histograms are
    the same. *)
Theorem C1_equal_means_score (qs1 qs2 : list QueryData) :
  same_means (stats qs1) (stats qs2) →
  Forall (λ x, x == 0)%Q (numerical_scores (stats qs1) (stats qs2))
  ∧ ((_calculate_drift_score (stats qs1) (stats qs2) == 0)%Q
     ↔ (_distribution_difference (query_type_distribution (stats qs1))
                                 (query_type_distribution (stats qs2)) == 0)%Q)
  ∧ (query_type_distribution (stats qs1) = query_type_distribution (stats qs2) →
     (_calculate_drift_score (stats qs1) (stats qs2) == 0)%Q).
Proof.
  intros Hmeans. split; [by apply numerical_scores_zero|].
  split; [by apply equal_means_score|].
  intros Htypes. apply equal_means_score; [done|].
  rewrite Htypes. apply distribution_difference_same.
Qed.

Lemma stats_types (qs : list QueryData) :
  query_type_distribution (stats qs)
  = Counter (map (λ q, default "unknown"%string (query_type q)) qs).
Proof. done. Qed.

Lemma stats_uniform_types (type : string) (n : nat) (qs : list QueryData) :
  length qs = S n → Forall (λ q, query_type q = Some type) qs →
  query_type_distribution (stats qs) = {[ type := Z.of_nat (S n) ]}.
Proof.
  intros Hlen Hqs.
  by rewrite stats_types, (uniform_types type), Hlen, Counter_replicate.
Qed.

(** C6, as the code has it: after 60 records of type "search" and then
    50 of type "price_check" on the module-level detector,
    [detect_drift] compares the first 50 searches with the 50 price
    checks; the query-type component of the score is exactly 1, the score
    is the mean of it and of the numerical components and so at least
    0.25, [drift_detected] says whether that mean exceeds 0.3, and it
    does whenever at most two numerical features have a positive
    baseline mean. *)
Theorem C6_type_shift_score (ops1 ops2 : list Op) (now : Z) :
  length (recorded ops1) = 60%nat →
  Forall (λ q, query_type q = Some "search"%string) (recorded ops1) →
  length (recorded ops2) = 50%nat →
  Forall (λ q, query_type q = Some "price_check"%string) (recorded ops2) →
  let baseline := stats (take 50 (recorded ops1)) in
  let current := stats (recorded ops2) in
  let type_drift :=
    _distribution_difference (query_type_distribution baseline)
                             (query_type_distribution current) in
  let score := _calculate_drift_score baseline current in
  ∃ r : DriftReport,
    (detect_drift (run drift_detector (ops1 ++ ops2)) now).1 = Report r
    ∧ rep_baseline_stats r = baseline
    ∧ rep_current_stats r = current
    ∧ drift_scores baseline current = numerical_scores baseline current ++ [type_drift]
    ∧ (type_drift == 1)%Q
    ∧ (1 # 4 <= score)%Q
    ∧ drift_detected r = Py.Qgtb score (3 # 10)
    ∧ ((length (numerical_scores baseline current) ≤ 2)%nat → drift_detected r = true).
Proof.
  intros Hlen1 Hty1 Hlen2 Hty2 baseline current type_drift score.
  (* the state the 110 records leave *)
  destruct (run_window 100 (3 # 10) (ops1 ++ ops2)) as (_ & Hth & Hrecent); [lia|].
  pose proof (run_baseline 100 (3 # 10) (ops1 ++ ops2)) as Hbase.
  fold drift_detector in Hth, Hrecent, Hbase.
  rewrite recorded_app in Hrecent, Hbase. rewrite length_app, Hlen1, Hlen2 in Hrecent, Hbase.
  simpl in Hrecent. rewrite take_app_le in Hbase by lia.
  specialize (Hbase ltac:(lia)). simpl in Hbase. fold baseline in Hbase.
  set (d := run drift_detector (ops1 ++ ops2)) in *.
  assert (Hlen : length (recent_queries d) = 100%nat).
  { rewrite Hrecent, length_drop, length_app. lia. }
  assert (Hcur : drop (length (recent_queries d) - 50) (recent_queries d) = recorded ops2).
  { rewrite Hlen, Hrecent, drop_drop. by apply drop_app_length'. }
  pose proof (detect_drift_report d now) as Hrep.
  rewrite Hbase, Hcur, Hth in Hrep. simpl in Hrep.
  fold current score in Hrep. specialize (Hrep ltac:(unfold Py.len; lia)).
  (* the two histograms *)
  assert (Hbt : query_type_distribution baseline = {[ "search"%string := 50 ]}).
  { apply (stats_uniform_types _ 49); [rewrite length_take; lia | by apply Forall_take]. }
  assert (Hct : query_type_distribution current = {[ "price_check"%string := 50 ]}).
  { by apply (stats_uniform_types _ 49). }
  assert (Htd : (type_drift == 1)%Q).
  { subst type_drift. rewrite Hbt, Hct. apply search_price_check_distance. }
  assert (Hscores : drift_scores baseline current
                    = numerical_scores baseline current ++ [type_drift]).
  { unfold drift_scores. cbv zeta.
    rewrite !bool_decide_eq_true_2; [done| |].
    - rewrite Hct. apply map_non_empty_singleton.
    - rewrite Hbt. apply map_non_empty_singleton. }
  assert (Hscore : (1 / inject_Z (Z.of_nat (length (numerical_scores baseline current)) + 1)
                    <= score)%Q).
  { subst score. rewrite calculate_drift_score_mean, Hscores.
    by apply np_mean_with_one, Htd; apply numerical_scores_nonneg. }
  eexists. split; [exact Hrep|].
  split; [reflexivity|]. split; [reflexivity|]. split; [exact Hscores|].
  split; [exact Htd|]. split; [|split; [reflexivity|]].
  - pose proof (inv_len_ge _ 3 (numerical_scores_length baseline current)) as H3.
    change (1 / inject_Z (Z.of_nat 3 + 1))%Q with (1 # 4)%Q in H3.
    by apply (Qle_trans _ _ _ H3).
  - intros Hk. cbn [drift_detected]. apply PyFacts.Qgtb_gt.
    pose proof (inv_len_ge _ 2 Hk) as H2.
    change (1 / inject_Z (Z.of_nat 2 + 1))%Q with (1 # 3)%Q in H2.
    apply (Qlt_le_trans _ (1 # 3)); [done|].
    by apply (Qle_trans _ _ _ H2).
Qed.

End Detector.

(** C6, as stated, fails: when the 110 records differ in nothing but their
    type, the three numerical components are 0, the score is 0.25 and
    [detect_drift] reports no drift. *)
Lemma C6_type_shift_alone_not_detected :
  ∃ r : DriftReport,
    (detect_drift example_sqrt (run example_sqrt drift_detector search_then_price_check) 0).1
    = Report r
    ∧ drift_detected r = false
    ∧ (drift_score r == 1 # 4)%Q.
Proof.
  eexists. split; [vm_compute; reflexivity|]. by vm_compute.
Qed.

(** C6 on records that carry nothing but their type: no numerical feature
    has a positive baseline, and the shift is detected. *)
Lemma C6_type_shift_score_witness :
  ∃ r : DriftReport,
    (detect_drift example_sqrt
       (run example_sqrt drift_detector
          (record_n 0 60 (typed_only "search")
           ++ record_n 60000000 50 (typed_only "price_check"))) 0).1 = Report r
    ∧ drift_detected r = true.
Proof.
  destruct (C6_type_shift_score example_sqrt
              (record_n 0 60 (typed_only "search"))
              (record_n 60000000 50 (typed_only "price_check")) 0)
    as (r & Hr & _ & _ & _ & _ & _ & _ & Hd).
  - by vm_compute.
  - vm_compute. repeat constructor.
  - by vm_compute.
  - vm_compute. repeat constructor.
  - exists r. split; [exact Hr|]. apply Hd. vm_compute. lia.
Defined.

(** C1, as stated, fails: 50 searches and 50 price checks that differ in
    nothing else have the same three means, and [detect_drift] scores them
    0.25. *)
Lemma C1_equal_means_nonzero_score :
  ∃ r : DriftReport,
    (detect_drift example_sqrt (run example_sqrt drift_detector fifty_fifty) 0).1 = Report r
    ∧ same_means (rep_baseline_stats r) (rep_current_stats r)
    ∧ (_calculate_drift_score (rep_baseline_stats r) (rep_current_stats r) == 1 # 4)%Q
    ∧ ¬ (_calculate_drift_score (rep_baseline_stats r) (rep_current_stats r) == 0)%Q.
Proof.
  eexists. split; [vm_compute; reflexivity|].
  split; [by vm_compute|]. split; [by vm_compute|].
  vm_compute. discriminate.
Qed.

(** C1 on two different sets of searches with the same means. *)
Lemma C1_equal_means_score_witness :
  same_means (_calculate_statistics example_sqrt searches_a)
             (_calculate_statistics example_sqrt searches_b)
  ∧ (_calculate_drift_score (_calculate_statistics example_sqrt searches_a)
                            (_calculate_statistics example_sqrt searches_b) == 0)%Q.
Proof.
  assert (Hmeans : same_means (_calculate_statistics example_sqrt searches_a)
                              (_calculate_statistics example_sqrt searches_b))
    by (by vm_compute).
  split; [exact Hmeans|].
  apply (C1_equal_means_score example_sqrt searches_a searches_b Hmeans).
  by vm_compute.
Defined.

(** C3 on 200 records: the baseline after record 50 is the baseline after
    record 200. *)
Lemma C3_baseline_set_once_witness :
  50 <= window_size drift_detector
  ∧ baseline_stats (run example_sqrt drift_detector
                      (record_n 0 50 (typed_query "search")
                       ++ record_n 50000000 150 (typed_query "price_check")))
    = baseline_stats (run example_sqrt drift_detector (record_n 0 50 (typed_query "search"))).
Proof.
  split; [by vm_compute|].
  apply (C3_baseline_set_once example_sqrt 100 (3 # 10)); [lia | vm_compute; lia].
Defined.

(** C8 at the module-level detector after 49 and after 50 searches. *)
Lemma C8_detect_insufficient_or_report_witness :
  (Py.len (recent_queries (warming_up example_sqrt)) < 50
   ∧ detect_drift example_sqrt (warming_up example_sqrt) 0
     = (InsufficientData {|
          ins_drift_detected := false;
          ins_reason := "Insufficient data for drift detection";
          ins_samples := Py.len (recent_queries (warming_up example_sqrt))
        |}, warming_up example_sqrt))
  ∧ (50 <= Py.len (recent_queries (just_active example_sqrt))
     ∧ ∃ r : DriftReport,
         (detect_drift example_sqrt (just_active example_sqrt) 0).1 = Report r
         ∧ threshold r = drift_threshold (just_active example_sqrt))
  ∧ (50 <= window_size drift_detector
     ∧ (length (recorded (record_n 0 50 (typed_query "search"))) ≤ 50)%nat
     ∧ recent_queries (just_active example_sqrt)
       = recorded (record_n 0 50 (typed_query "search"))).
Proof.
  split; [|split].
  - assert (Hlen : Py.len (recent_queries (warming_up example_sqrt)) < 50) by (by vm_compute).
    split; [exact Hlen|].
    exact (proj1 (C8_detect_insufficient_or_report example_sqrt _ 0 0 0 []) Hlen).
  - assert (Hlen : 50 <= Py.len (recent_queries (just_active example_sqrt)))
      by (by vm_compute).
    split; [exact Hlen|].
    destruct (proj1 (proj2 (C8_detect_insufficient_or_report example_sqrt _ 0 0 0 [])) Hlen)
      as (r & Hr & _ & _ & Ht & _).
    exists r. split; [exact Hr | exact Ht].
  - assert (Hw : 50 <= window_size drift_detector) by (by vm_compute).
    assert (Hn : (length (recorded (record_n 0 50 (typed_query "search"))) ≤ 50)%nat)
      by (vm_compute; lia).
    split; [exact Hw|]. split; [exact Hn|].
    exact (proj2 (proj2 (C8_detect_insufficient_or_report example_sqrt drift_detector 0
                           100 (3 # 10) (record_n 0 50 (typed_query "search")))) Hw Hn).
Defined.

End DriftProofs.

(** ** trigger.py *)

Module TriggerProofs.
Import Trigger.

Section Evaluate.

Variable format : Q → string → string.

Local Abbreviation evaluate_retraining_need := (evaluate_retraining_need format).

(** C4: when [last_retraining] is set and fewer than
    [min_retraining_interval_hours] hours (24 after [__init__]) have
    passed since, [evaluate_retraining_need] returns
    [should_retrain = False] with the single reason
    "Too soon since last retraining", whatever the metrics and the drift
    report are; the result carries no evaluated metrics and the trigger,
    its history included, is unchanged. *)
Theorem C4_too_soon_short_circuit (self : RetrainingTrigger) (now last : Z)
    (metrics : MetricsInfo) (drift_info : DriftInfo) :
  last_retraining self = Some last →
  (hours_since last now < min_retraining_interval_hours self)%Q →
  evaluate_retraining_need self now metrics drift_info
  = Some ({|
      should_retrain := false;
      reasons := ["Too soon since last retraining"%string];
      time_since_last_hours := Some (hours_since last now);
      timestamp := None;
      metrics_evaluated := None
    |}, self).
Proof.
  intros Hlast Hsoon. unfold Trigger.evaluate_retraining_need, too_soon.
  rewrite Hlast. apply PyFacts.Qltb_lt in Hsoon. by rewrite Hsoon.
Qed.

(** C5: when the early return does not apply, on a trigger with the
    thresholds of [__init__], [should_retrain] is the disjunction of the
    four checks, [reasons] holds the reason of every check that
    triggered, in the order of the checks, and the decision is recorded
    in the history exactly when [should_retrain] is true; with a success
    rate of 100 percent, no drift detected, no failed response and an
    average response time of 1.0 the result is [should_retrain = False]
    with no reason. *)
Theorem C5_retrain_iff_some_check (self : RetrainingTrigger) (now : Z)
    (metrics : MetricsInfo) (drift_info : DriftInfo) :
  default_config self →
  too_soon self now = false →
  let c1 := performance_degraded metrics in
  let c2 := drift_significant drift_info in
  let c3 := error_rate_high metrics in
  let c4 := response_time_degraded metrics in
  ∃ (decision : Decision) (self' : RetrainingTrigger),
    evaluate_retraining_need self now metrics drift_info = Some (decision, self')
    ∧ should_retrain decision = c1 || c2 || c3 || c4
    ∧ reasons decision
      = (if c1 then [performance_reason format (success_rate_of metrics) (85 # 100)] else [])
        ++ (if c2 then [drift_reason format (default 0%Q (drift_score drift_info))] else [])
        ++ (if c3 then [error_rate_reason format
                          (inject_Z (default 0 (failed_responses metrics))
                           / inject_Z (default 0 (total_api_calls metrics)))] else [])
        ++ (if c4 then [response_time_reason format
                          (default 0%Q (avg_response_time_seconds metrics))] else [])
    ∧ self' = (if should_retrain decision
               then _record_retraining_event self decision else self)
    ∧ (success_rate_percent metrics = Some 100%Q →
       drift_detected drift_info = Some false →
       failed_responses metrics = Some 0 →
       avg_response_time_seconds metrics = Some 1%Q →
       should_retrain decision = false ∧ reasons decision = []).
Proof.
  intros (Hperf & Hdrift & Hmin & _) Hsoon c1 c2 c3 c4.
  unfold Trigger.evaluate_retraining_need. rewrite Hsoon, Hperf, Hdrift, Hmin.
  change (performance_threshold init) with (85 # 100)%Q.
  change (drift_threshold init) with (3 # 10)%Q.
  change (min_samples_for_evaluation init) with 100.
  subst c1 c2 c3 c4.
  unfold performance_degraded, drift_significant, error_rate_high,
    response_time_degraded, success_rate_of.
  destruct metrics as [srp total failed avg], drift_info as [detected score].
  cbn [success_rate_percent total_api_calls failed_responses avg_response_time_seconds
       drift_detected drift_score].
  set (total' := default 0 total).
  assert (Hzero : (100 <=? total') = true → (total' =? 0) = false).
  { intros H%Z.leb_le. apply Z.eqb_neq. lia. }
  destruct (Py.Qltb (default 100%Q srp / 100) (85 # 100)) eqn:E1;
    destruct (default false detected) eqn:Ed;
    destruct (Py.Qgtb (default 0%Q score) (3 # 10)) eqn:E2;
    destruct (100 <=? total') eqn:Emin;
    try rewrite (Hzero eq_refl);
    destruct (Py.Qgtb (inject_Z (default 0 failed) / inject_Z total') (15 # 100)) eqn:E3;
    destruct (Py.Qgtb (default 0%Q avg) 5) eqn:E4;
    cbn -[Py.Qltb Py.Qgtb _record_retraining_event];
    (eexists; eexists; split; [reflexivity|]);
    cbn [should_retrain reasons];
    (split; [reflexivity|]); (split; [reflexivity|]); (split; [reflexivity|]);
    intros Hsrp Hdet Hfailed Havg; simplify_eq/=;
    try (by vm_compute in E1); try (by vm_compute in E4);
    try (by vm_compute in Ed).
  all: exfalso; clear -E3 Emin; apply PyFacts.Qgtb_gt in E3; apply Z.leb_le in Emin.
  all: unfold Qdiv in E3; rewrite Qmult_0_l in E3; by vm_compute in E3.
Qed.

End Evaluate.

(** C4 at 23 hours after a retraining, with metrics and drift that would
    trigger all four checks. *)
Lemma C4_too_soon_short_circuit_witness :
  last_retraining (retrained_at 0) = Some 0
  ∧ (hours_since 0 (23 * 3600 * 1000000) < min_retraining_interval_hours (retrained_at 0))%Q
  ∧ evaluate_retraining_need example_format (retrained_at 0) (23 * 3600 * 1000000)
      failing_metrics strong_drift
    = Some ({|
        should_retrain := false;
        reasons := ["Too soon since last retraining"%string];
        time_since_last_hours := Some (hours_since 0 (23 * 3600 * 1000000));
        timestamp := None;
        metrics_evaluated := None
      |}, retrained_at 0).
Proof.
  assert (Hsoon : (hours_since 0 (23 * 3600 * 1000000)
                   < min_retraining_interval_hours (retrained_at 0))%Q) by (by vm_compute).
  split; [reflexivity|]. split; [exact Hsoon|].
  exact (C4_too_soon_short_circuit example_format (retrained_at 0) _ 0
           failing_metrics strong_drift eq_refl Hsoon).
Defined.

(** C5 on a fresh trigger with the all-healthy metrics. *)
Lemma C5_retrain_iff_some_check_witness :
  default_config init
  ∧ too_soon init 0 = false
  ∧ ∃ (decision : Decision) (self' : RetrainingTrigger),
      evaluate_retraining_need example_format init 0 healthy_metrics no_drift
      = Some (decision, self')
      ∧ should_retrain decision = false
      ∧ reasons decision = []
      ∧ self' = init.
Proof.
  assert (Hconfig : default_config init) by (by repeat split).
  split; [exact Hconfig|]. split; [reflexivity|].
  destruct (C5_retrain_iff_some_check example_format init 0 healthy_metrics no_drift
              Hconfig eq_refl)
    as (decision & self' & Heval & _ & _ & Hself & Hexample).
  destruct (Hexample eq_refl eq_refl eq_refl eq_refl) as [Hno Hreasons].
  exists decision, self'. rewrite Hno in Hself. done.
Defined.

(** A success rate of 80 percent triggers, and the first reason is the one
    of the performance check. *)
Example evaluate_low_success_rate :
  ∃ (decision : Decision) (self' : RetrainingTrigger),
    evaluate_retraining_need example_format init 0 failing_metrics no_drift
    = Some (decision, self')
    ∧ should_retrain decision = true
    ∧ head (reasons decision)
      = Some (performance_reason example_format (80 / 100) (85 # 100))
    ∧ retraining_history self' = [decision].
Proof. eexists. eexists. split; [vm_compute; reflexivity|]. by vm_compute. Qed.

Section Pipeline.

Variable strftime : Z → string → string.

Local Abbreviation trigger_retraining_pipeline := (trigger_retraining_pipeline strftime).

(** C7, as the code has it: [trigger_retraining_pipeline] returns
    [False] exactly when the runner script exists and launching it
    raises, and the trigger is then unchanged; in every other case,
    the one of a missing script included, it returns [True] and sets
    [last_retraining] to the current time, leaving the rest of the
    trigger as it was. *)
Theorem C7_pipeline_result (self : RetrainingTrigger) (w : World) (now : Z)
    (reason : string) :
  let ok := (trigger_retraining_pipeline self w now reason).1.1 in
  let self' := (trigger_retraining_pipeline self w now reason).1.2 in
  (ok = false ↔ script_exists w = true ∧ popen w = None)
  ∧ (ok = false → self' = self)
  ∧ (ok = true →
     last_retraining self' = Some now
     ∧ retraining_history self' = retraining_history self
     ∧ performance_threshold self' = performance_threshold self
     ∧ drift_threshold self' = drift_threshold self
     ∧ min_samples_for_evaluation self' = min_samples_for_evaluation self
     ∧ min_retraining_interval_hours self' = min_retraining_interval_hours self)
  ∧ (script_exists w = false → ok = true).
Proof.
  unfold Trigger.trigger_retraining_pipeline, _save_retraining_job.
  destruct w as [jobs [] [] [pid|]]; cbn; intuition congruence.
Qed.

End Pipeline.

(** C7, as stated, fails: with the runner script missing the call returns
    [True] and moves [last_retraining]. *)
Lemma C7_missing_script_reports_success :
  script_exists script_missing = false
  ∧ (trigger_retraining_pipeline example_strftime init script_missing 1000000 "drift").1.1
    = true
  ∧ last_retraining
      (trigger_retraining_pipeline example_strftime init script_missing 1000000 "drift").1.2
    = Some 1000000.
Proof. by vm_compute. Qed.

(** A launch that raises is reported and leaves the trigger alone. *)
Example pipeline_launch_raises :
  (trigger_retraining_pipeline example_strftime init launch_raises 1000000 "drift").1
  = (false, init).
Proof. reflexivity. Qed.

End TriggerProofs.

(** ** alerts.py *)

Module AlertsProofs.
Import Alerts.

Section History.

Variable Data : Type.
Variable post : string → string → Posted.

Local Abbreviation dispatch := (_dispatch_notification Data post).
Local Abbreviation dispatch_all := (dispatch_all Data post).

(** One dispatch appends and keeps the newest 1000. *)
Lemma dispatch_history (m : NotificationManager Data) (n : Notification Data) :
  notification_history Data (dispatch m n).1
  = drop (length (notification_history Data m ++ [n]) - 1000)
         (notification_history Data m ++ [n]).
Proof.
  unfold _dispatch_notification. cbn [fst notification_history].
  by rewrite (PyFacts.truncate_last 1000).
Qed.

Lemma dispatch_all_snoc (m : NotificationManager Data) (ns : list (Notification Data))
    (n : Notification Data) :
  dispatch_all m (ns ++ [n]) = (dispatch (dispatch_all m ns) n).1.
Proof. unfold Alerts.dispatch_all. by rewrite foldl_app. Qed.

(** After any sequence of dispatches on a fresh manager the history is
    the newest 1000 notifications, in dispatch order. *)
Lemma dispatch_all_history (email slack : bool) (webhook : string)
    (ns : list (Notification Data)) :
  notification_history Data (dispatch_all (init Data email slack webhook) ns)
  = drop (length ns - 1000) ns.
Proof.
  induction ns as [|n ns IH] using rev_ind; [done|].
  rewrite dispatch_all_snoc, dispatch_history, IH.
  apply (PyFacts.keep_last_snoc 1000). lia.
Qed.

(** C9: after any sequence of dispatches on a fresh manager the history
    has at most 1000 entries and is the sequence dispatched without its
    first [length - 1000] entries: the oldest are dropped first and the
    order is kept; after 10000 dispatches it is [ns[-1000:]], the last
    1000 of them. *)
Theorem C9_history_bounded_fifo (email slack : bool) (webhook : string)
    (ns : list (Notification Data)) :
  let history :=
    notification_history Data (dispatch_all (init Data email slack webhook) ns) in
  (length history ≤ 1000)%nat
  ∧ history = drop (length ns - 1000) ns
  ∧ (Py.len ns = 10000 →
     history = Py.slice_from (-1000) ns ∧ Py.len history = 1000).
Proof.
  intros history. subst history. rewrite dispatch_all_history.
  split; [rewrite length_drop; lia|]. split; [done|].
  unfold Py.len. intros Hlen.
  rewrite (PyFacts.slice_from_neg 1000), length_drop by lia.
  split; [f_equal|]; lia.
Qed.

End History.

(** C9 on 10000 notifications. *)
Lemma C9_history_bounded_fifo_witness :
  Py.len ten_thousand = 10000
  ∧ notification_history unit (dispatch_all unit no_post (init unit true true "hook") ten_thousand)
    = Py.slice_from (-1000) ten_thousand.
Proof.
  assert (Hlen : Py.len ten_thousand = 10000) by (by vm_compute).
  split; [exact Hlen|].
  apply (C9_history_bounded_fifo unit no_post true true "hook" ten_thousand), Hlen.
Defined.

End AlertsProofs.

(** * Further properties *)

(** ** Histograms *)

Module HistogramFacts.
Import Drift.

(** [counts[k] = counts.get(k, 0) + 1] adds one to the sum of the counts. *)
Lemma sum_values_insert_fresh (m : gmap string Z) (k : string) (v : Z) :
  m !! k = None → sum_values (<[k := v]> m) = sum_values m + v.
Proof.
  intros Hk. unfold sum_values.
  rewrite map_fold_insert_L; [lia | intros; lia | exact Hk].
Qed.

Lemma sum_values_insert (m : gmap string Z) (k : string) (v : Z) :
  sum_values (<[k := v]> m) = sum_values m - default 0 (m !! k) + v.
Proof.
  destruct (m !! k) as [x|] eqn:Hk; simpl.
  - rewrite <- (insert_delete_id m k x Hk) at 2.
    rewrite <- (insert_delete_eq m).
    rewrite !sum_values_insert_fresh by apply lookup_delete_eq. lia.
  - rewrite sum_values_insert_fresh by done. lia.
Qed.

Lemma sum_values_bump (m : gmap string Z) (k : string) :
  sum_values (<[k := default 0 (m !! k) + 1]> m) = sum_values m + 1.
Proof. rewrite sum_values_insert. lia. Qed.

(** The loop of [Counter], from any starting histogram. *)
Lemma count_fold_sum (xs : list string) (m : gmap string Z) :
  sum_values (foldl (λ m k, <[k := default 0 (m !! k) + 1]> m) m xs)
  = sum_values m + Py.len xs.
Proof.
  revert m. induction xs as [|x xs IH]; intros m; simpl.
  - unfold Py.len. simpl. lia.
  - rewrite IH, sum_values_bump. unfold Py.len. simpl length. lia.
Qed.

Lemma count_fold_lookup (xs : list string) (m : gmap string Z) (t : string) :
  foldl (λ m k, <[k := default 0 (m !! k) + 1]> m) m xs !! t
  = if Py.len (filter (λ x, x = t) xs) =? 0 then m !! t
    else Some (default 0 (m !! t) + Py.len (filter (λ x, x = t) xs)).
Proof.
  revert m. induction xs as [|x xs IH]; intros m; [done|].
  simpl foldl. rewrite IH, filter_cons. clear IH.
  unfold Py.len. destruct (decide (x = t)) as [->|Hne].
  - rewrite lookup_insert_eq. cbn [default length].
    generalize (length (filter (λ x, x = t) xs)). intros n. rewrite Nat2Z.inj_succ.
    destruct (Z.of_nat n =? 0) eqn:E;
      destruct (Z.succ (Z.of_nat n) =? 0) eqn:E'; try (apply Z.eqb_eq in E'; lia).
    + apply Z.eqb_eq in E. clear E'. apply (f_equal Some). lia.
    + clear E E'. apply (f_equal Some). unfold id. lia.
  - by rewrite lookup_insert_ne.
Qed.

Lemma count_fold_positive (xs : list string) (m : gmap string Z) :
  map_Forall (λ _ v, 0 < v) m →
  map_Forall (λ _ v, 0 < v) (foldl (λ m k, <[k := default 0 (m !! k) + 1]> m) m xs).
Proof.
  revert m. induction xs as [|x xs IH]; intros m Hm; [done|].
  simpl. apply IH. apply map_Forall_insert_2; [|done].
  destruct (m !! x) as [v|] eqn:Hx; simpl; [|lia].
  specialize (Hm x v Hx). simpl in Hm. lia.
Qed.

Lemma Counter_sum (xs : list string) : sum_values (Counter xs) = Py.len xs.
Proof.
  unfold Counter. rewrite count_fold_sum. unfold sum_values.
  by rewrite map_fold_empty.
Qed.

Lemma Counter_lookup (xs : list string) (t : string) :
  Counter xs !! t
  = if Py.len (filter (λ x, x = t) xs) =? 0 then None
    else Some (Py.len (filter (λ x, x = t) xs)).
Proof. unfold Counter. by rewrite count_fold_lookup, lookup_empty. Qed.

Lemma Counter_positive (xs : list string) : map_Forall (λ _ v, 0 < v) (Counter xs).
Proof. apply count_fold_positive, map_Forall_empty. Qed.

End HistogramFacts.

(** ** metrics.py *)

Module MetricsExtra.
Import Metrics.

(** The histogram update of [record_api_call] is the one of a counter. *)
Lemma record_api_call_types (m : MetricsCollector) (c : Call) :
  query_types (record_api_call m c)
  = <[query_type c := default 0 (query_types m !! query_type c) + 1]> (query_types m).
Proof.
  unfold record_api_call. cbn [query_types].
  apply map_eq. intros t.
  destruct (query_types m !! query_type c) as [v|] eqn:Hv; simpl;
    destruct (decide (query_type c = t)) as [<-|Hne].
  - by rewrite lookup_alter_eq, lookup_insert_eq, Hv.
  - by rewrite lookup_alter_ne, lookup_insert_ne.
  - by rewrite lookup_alter_eq, !lookup_insert_eq.
  - by rewrite lookup_alter_ne, !lookup_insert_ne.
Qed.

Lemma record_all_types (cs : list Call) (m : MetricsCollector) :
  query_types (record_all m cs)
  = foldl (λ m k, <[k := default 0 (m !! k) + 1]> m) (query_types m) (map query_type cs).
Proof.
  revert m. induction cs as [|c cs IH]; intros m; [done|].
  unfold record_all in *. simpl. by rewrite IH, record_api_call_types.
Qed.

Lemma filter_types (type : string) (cs : list Call) :
  Py.len (filter (λ x, x = type) (map query_type cs)) = calls_of_type type cs.
Proof.
  unfold calls_of_type, Py.len. f_equal.
  induction cs as [|c cs IH]; [done|].
  simpl map. rewrite !filter_cons.
  destruct (decide (query_type c = type)); simpl; by rewrite IH.
Qed.

(** X1: after any sequence of [record_api_call]s on a fresh collector, the
    ['query_types'] histogram maps a query type to the number of calls made
    with it, and has no key for a type no call was made with. *)
Theorem query_types_counts_calls (now : Z) (cs : list Call) (type : string) :
  query_types (record_all (init now) cs) !! type
  = if calls_of_type type cs =? 0 then None else Some (calls_of_type type cs).
Proof.
  rewrite record_all_types, HistogramFacts.count_fold_lookup, filter_types.
  cbn [init query_types]. by rewrite lookup_empty.
Qed.

(** X2: after any sequence of [record_api_call]s on a fresh collector, the
    counts of the ['query_types'] histogram add up to ['api_calls'], and
    the snapshot of [get_metrics] carries that histogram. *)
Theorem query_types_sum_to_api_calls (now now' : Z) (cs : list Call) :
  Drift.sum_values (query_types (record_all (init now) cs))
  = api_calls (record_all (init now) cs)
  ∧ snap_query_types (get_metrics (record_all (init now) cs) now')
    = query_types (record_all (init now) cs).
Proof.
  split; [|done].
  rewrite record_all_types, HistogramFacts.count_fold_sum.
  destruct (MetricsProofs.record_all_counts cs (init now)) as (-> & _ & _).
  unfold Drift.sum_values at 1. cbn [query_types init api_calls].
  rewrite map_fold_empty. unfold Py.len. by rewrite length_map.
Qed.

Lemma record_all_snoc (m : MetricsCollector) (cs : list Call) (c : Call) :
  record_all m (cs ++ [c]) = record_api_call (record_all m cs) c.
Proof. unfold record_all. by rewrite foldl_app. Qed.

(** X3: the two accumulation lists of a collector hold the response time and
    the result count of every call since [__init__], in call order: nothing
    is ever dropped from them, and each is as long as ['api_calls']. *)
Theorem accumulation_lists_keep_every_call (now : Z) (cs : list Call) :
  let m := record_all (init now) cs in
  avg_response_time m = map response_time cs
  ∧ properties_returned m = map properties_count cs
  ∧ Py.len (avg_response_time m) = api_calls m
  ∧ Py.len (properties_returned m) = api_calls m.
Proof.
  cbv zeta.
  assert (Hlists : avg_response_time (record_all (init now) cs) = map response_time cs
                   ∧ properties_returned (record_all (init now) cs)
                     = map properties_count cs).
  { induction cs as [|c cs [IHr IHp]] using rev_ind; [done|].
    rewrite record_all_snoc, !map_app. cbn [record_api_call avg_response_time
      properties_returned]. by rewrite IHr, IHp. }
  destruct Hlists as [Hr Hp]. rewrite Hr, Hp.
  destruct (MetricsProofs.record_all_counts cs (init now)) as (-> & _ & _).
  unfold Py.len. rewrite !length_map. cbn [init api_calls]. done.
Qed.



Section Health.

Variable str : Q → string.

Local Abbreviation check_health := (check_health str).

(** X5: [check_health] reports healthy exactly when it lists no issue, and
    it lists at most three. *)
Theorem healthy_iff_no_issue (m : MetricsCollector) (now : Z) :
  (healthy (check_health m now) = true ↔ issues (check_health m now) = [])
  ∧ (length (issues (check_health m now)) ≤ 3)%nat.
Proof.
  unfold Metrics.check_health.
  destruct (Py.Qltb _ 95), (Py.Qgtb _ 3), ((0 <? _) && (_ =? 0));
    cbn; split; (done || lia).
Qed.


(** X7: the issue "No successful responses" never comes alone: whenever
    [check_health] lists it, the first issue listed is the low success
    rate. *)
Theorem no_success_issue_follows_low_rate (m : MetricsCollector) (now : Z) :
  "No successful responses"%string ∈ issues (check_health m now) →
  head (issues (check_health m now))
  = Some (low_success_rate_issue str (get_metrics m now)).
Proof.
  unfold Metrics.check_health.
  destruct ((0 <? total_api_calls _) && (snap_successful_responses _ =? 0)) eqn:E3.
  - intros _. apply andb_prop in E3 as [Hcalls Hsucc].
    cbn [get_metrics total_api_calls snap_successful_responses] in Hcalls, Hsucc.
    apply Z.eqb_eq in Hsucc.
    assert (Hlow : Py.Qltb (success_rate_percent (get_metrics m now)) 95 = true).
    { apply PyFacts.Qltb_lt. unfold get_metrics. cbn [success_rate_percent].
      rewrite Hcalls, Hsucc.
      assert (Hzero : (inject_Z 0 / inject_Z (api_calls m) * 100 == 0)%Q)
        by (unfold Qdiv; by rewrite !Qmult_0_l).
      rewrite (PyFacts.round_proper _ _ Hzero 2%nat 2%nat eq_refl), PyFacts.round_0. done. }
    rewrite Hlow. by destruct (Py.Qgtb _ 3).
  - destruct (Py.Qltb _ 95), (Py.Qgtb _ 3); cbn;
      unfold low_success_rate_issue, high_response_time_issue;
      intros Hin; repeat (apply elem_of_cons in Hin as [Hin|Hin]; [discriminate|]);
      by apply elem_of_nil in Hin.
Qed.

End Health.


(** X7 after three failures. *)
Lemma no_success_issue_follows_low_rate_witness :
  "No successful responses"%string
  ∈ issues (check_health example_str (record_all (init 0) all_failed) 0)
  ∧ head (issues (check_health example_str (record_all (init 0) all_failed) 0))
    = Some (low_success_rate_issue example_str
              (get_metrics (record_all (init 0) all_failed) 0)).
Proof.
  assert (Hin : "No successful responses"%string
                ∈ issues (check_health example_str (record_all (init 0) all_failed) 0)).
  { vm_compute. do 2 apply list_elem_of_further. apply list_elem_of_here. }
  split; [exact Hin|].
  apply (no_success_issue_follows_low_rate example_str _ 0 Hin).
Defined.

End MetricsExtra.

(** ** metrics.py, the mean result count in binary64 *)

Module Metrics64Extra.
Import PrimFloat Metrics.

Lemma record_all_properties (now : Z) (cs : list Call) :
  properties_returned (record_all (init now) cs) = map properties_count cs.
Proof.
  induction cs as [|c cs IH] using rev_ind; [done|].
  rewrite MetricsExtra.record_all_snoc, map_app.
  cbn [record_api_call properties_returned]. by rewrite IH.
Qed.

(** X4: ['avg_properties_returned'] of a snapshot is zero before the first
    call; after calls it is [round(x, 1)] of the double nearest to the sum
    of the result counts of all calls over the number of calls.  It is the
    double that is rounded: 8 results over 160 calls have the mean 0.05,
    the double nearest to it lies above it, and the snapshot holds 0.1. *)
Theorem avg_properties_returned_binary64 (now : Z) (cs : list Call) :
  Metrics64.avg_properties_returned (record_all (init now) cs)
  = (if 0 <? Py.len cs
     then x ← Py64.truediv (Py.sumZ (map properties_count cs)) (Py.len cs);
          Some (Py64.round x 1)
     else Some 0%float)
  ∧ Metrics64.avg_properties_returned (record_all (init now) Metrics64.calls_23_of_160)
    = Some 0.1%float
  ∧ Py.sumZ (map properties_count Metrics64.calls_23_of_160) = 8
  ∧ Py.len Metrics64.calls_23_of_160 = 160
  ∧ (Py.round (8 / 160) 1 == 0)%Q.
Proof.
  split; [|repeat split; by vm_compute].
  unfold Metrics64.avg_properties_returned. rewrite record_all_properties.
  destruct cs as [|c cs]; [reflexivity|].
  replace (0 <? Py.len (c :: cs)) with true
    by (symmetry; apply Z.ltb_lt; unfold Py.len; simpl length; lia).
  cbn [map]. unfold Py.len. cbn [length]. by rewrite length_map.
Qed.

End Metrics64Extra.

(** ** drift_detector.py *)

Module DriftExtra.
Import Drift.

Lemma detect_times_app (ops1 ops2 : list Op) :
  detect_times (ops1 ++ ops2) = detect_times ops1 ++ detect_times ops2.
Proof. unfold detect_times. apply omap_app. Qed.

Lemma filter_sublist_mono {A} (P : A → Prop) `{!∀ x, Decision (P x)} (l1 l2 : list A) :
  l1 `sublist_of` l2 → filter P l1 `sublist_of` filter P l2.
Proof.
  induction 1 as [|x l1 l2 _ IH|x l1 l2 _ IH]; [done| |];
    rewrite ?filter_cons; destruct (decide (P x)); try done.
  - by apply sublist_skip.
  - by apply sublist_cons.
Qed.

Lemma filter_map_length {A B} (f : A → B) (P : B → Prop) `{!∀ x, Decision (P x)}
    (l : list A) :
  length (filter (λ x, P (f x)) l) = length (filter P (map f l)).
Proof.
  induction l as [|x l IH]; [done|].
  simpl map. rewrite !filter_cons. destruct (decide (P (f x))); simpl; by rewrite IH.
Qed.

(** *** Sums over the keys of histograms *)

(** The loop [for key in all_keys: diff_sum += ...] over the keys in the
    order [elements] lists them. *)
Local Abbreviation key_sum f l :=
  (foldr (λ (key : string) (acc : Q), acc + f key)%Q 0%Q l).

Lemma key_sum_le (f g : string → Q) (l : list string) :
  (∀ k, f k <= g k)%Q → (key_sum f l <= key_sum g l)%Q.
Proof.
  intros Hfg. induction l as [|k l IH]; simpl; [apply Qle_refl|].
  specialize (Hfg k). lra.
Qed.

Lemma key_sum_plus (f g : string → Q) (l : list string) :
  (key_sum (λ k, f k + g k) l == key_sum f l + key_sum g l)%Q.
Proof.
  induction l as [|k l IH]; simpl; [reflexivity|]. rewrite IH. ring.
Qed.

Lemma key_sum_nonneg (f : string → Q) (l : list string) :
  (∀ k, 0 <= f k)%Q → (0 <= key_sum f l)%Q.
Proof.
  intros Hf. induction l as [|k l IH]; simpl; [apply Qle_refl|].
  specialize (Hf k). lra.
Qed.

(** The counts of a histogram, summed over a list of keys. *)
Local Abbreviation count_sum dist l :=
  (foldr (λ (key : string) (acc : Z), acc + default 0 (dist !! key)) 0 l).

Lemma count_sum_ext (d1 d2 : gmap string Z) (l : list string) :
  (∀ k, k ∈ l → d1 !! k = d2 !! k) → count_sum d1 l = count_sum d2 l.
Proof.
  induction l as [|k l IH]; intros Hd; simpl; [done|].
  rewrite IH by (intros i Hi; apply Hd; set_solver).
  by rewrite (Hd k) by set_solver.
Qed.

Lemma sum_values_delete (d : gmap string Z) (k : string) :
  sum_values d = default 0 (d !! k) + sum_values (delete k d).
Proof.
  destruct (d !! k) as [v|] eqn:Hk; simpl.
  - rewrite <- (insert_delete_id d k v Hk) at 1.
    rewrite HistogramFacts.sum_values_insert_fresh by apply lookup_delete_eq. lia.
  - by rewrite delete_id.
Qed.

(** Summing the counts over a duplicate-free list that has every key of the
    histogram is [sum(dist.values())]. *)
Lemma count_sum_all_keys (l : list string) (d : gmap string Z) :
  NoDup l → (∀ k, is_Some (d !! k) → k ∈ l) → count_sum d l = sum_values d.
Proof.
  revert d. induction l as [|k l IH]; intros d Hnodup Hkeys.
  - simpl. assert (d = ∅) as ->.
    { apply map_empty. intros i. apply eq_None_not_Some. intros Hi.
      by apply Hkeys, elem_of_nil in Hi. }
    unfold sum_values. by rewrite map_fold_empty.
  - apply NoDup_cons in Hnodup as [Hk Hnodup]. simpl.
    rewrite (sum_values_delete d k), <- (IH (delete k d)); [| done |].
    + rewrite (count_sum_ext d (delete k d)); [lia|].
      intros i Hi. rewrite lookup_delete_ne; [done|]. by intros ->.
    + intros i Hi. destruct (decide (i = k)) as [->|Hne].
      * rewrite lookup_delete_eq in Hi. destruct Hi as [? Hi]. discriminate Hi.
      * rewrite lookup_delete_ne in Hi by done.
        apply Hkeys in Hi. by apply elem_of_cons in Hi as [?|?].
Qed.

Lemma sum_values_nonneg (d : gmap string Z) : counts_nonneg d → 0 <= sum_values d.
Proof.
  unfold counts_nonneg. induction d as [|k v d Hk IH] using map_ind.
  - intros _. unfold sum_values. by rewrite map_fold_empty.
  - intros Hd. apply map_Forall_insert in Hd as [Hv Hd]; [|done].
    rewrite HistogramFacts.sum_values_insert_fresh by done.
    specialize (IH Hd). simpl in Hv. lia.
Qed.

(** The normalised histogram [norm_dist], summed over a list of keys. *)
Lemma key_sum_norm (d : gmap string Z) (total : Z) (l : list string) :
  (key_sum (norm_get d total) l == inject_Z (count_sum d l) / inject_Z total)%Q.
Proof.
  induction l as [|k l IH]; simpl.
  - unfold Qdiv. by rewrite Qmult_0_l.
  - rewrite IH, inject_Z_plus. unfold norm_get.
    destruct (d !! k) as [v|]; simpl; unfold Qdiv.
    + ring.
    + change (inject_Z 0) with 0%Q. ring.
Qed.

Lemma norm_get_nonneg (d : gmap string Z) (k : string) :
  counts_nonneg d → (0 <= norm_get d (sum_values d) k)%Q.
Proof.
  intros Hd. unfold norm_get. destruct (d !! k) as [v|] eqn:Hk; [|apply Qle_refl].
  pose proof (sum_values_nonneg d Hd) as Ht. specialize (Hd k v Hk). simpl in Hd.
  destruct (decide (sum_values d = 0)) as [->|Hne].
  - unfold Qdiv. change (/ inject_Z 0)%Q with 0%Q. rewrite Qmult_0_r. apply Qle_refl.
  - apply Qle_shift_div_l.
    + change 0%Q with (inject_Z 0). rewrite <- Zlt_Qlt. lia.
    + rewrite Qmult_0_l. change 0%Q with (inject_Z 0). rewrite <- Zle_Qle. lia.
Qed.

(** The whole of a normalised histogram is [1]. *)
Lemma key_sum_norm_all (d : gmap string Z) (X : gset string) :
  dom d ⊆ X → sum_values d ≠ 0 →
  (key_sum (norm_get d (sum_values d)) (elements X) == 1)%Q.
Proof.
  intros Hdom Hne. rewrite key_sum_norm, count_sum_all_keys.
  - field. change 0%Q with (inject_Z 0). by rewrite inject_Z_injective.
  - apply NoDup_elements.
  - intros k Hk. apply elem_of_elements, Hdom. by apply elem_of_dom.
Qed.

(** Over the rationals, the distance of two histograms of non-negative
    counts lies between 0 and 1. *)
Lemma distribution_difference_bounds (dist1 dist2 : gmap string Z) :
  counts_nonneg dist1 → counts_nonneg dist2 →
  (0 <= _distribution_difference dist1 dist2 <= 1)%Q.
Proof.
  intros Hd1 Hd2. unfold _distribution_difference. cbv zeta.
  destruct ((sum_values dist1 =? 0) || (sum_values dist2 =? 0)) eqn:E; [lra|].
  apply orb_false_elim in E as [Ht1%Z.eqb_neq Ht2%Z.eqb_neq].
  unfold set_fold, compose.
  set (l := elements (dom dist1 ∪ dom dist2)).
  assert (Hlow : (0 <= key_sum (λ k, Qabs (norm_get dist1 (sum_values dist1) k
                                           - norm_get dist2 (sum_values dist2) k)) l)%Q)
    by (apply key_sum_nonneg; intros k; apply Qabs_nonneg).
  assert (Hhigh : (key_sum (λ k, Qabs (norm_get dist1 (sum_values dist1) k
                                       - norm_get dist2 (sum_values dist2) k)) l <= 2)%Q).
  { apply (Qle_trans _ (key_sum (λ k, norm_get dist1 (sum_values dist1) k
                                      + norm_get dist2 (sum_values dist2) k)%Q l)).
    - apply key_sum_le. intros k.
      pose proof (norm_get_nonneg dist1 k Hd1) as H1.
      pose proof (norm_get_nonneg dist2 k Hd2) as H2.
      revert H1 H2.
      generalize (norm_get dist1 (sum_values dist1) k),
        (norm_get dist2 (sum_values dist2) k).
      intros a b Ha Hb. apply Qabs_case; intros _; lra.
    - rewrite key_sum_plus. subst l.
      rewrite !key_sum_norm_all by (done || set_solver). lra. }
  cbv beta in Hlow, Hhigh.
  split; [apply Qle_shift_div_l | apply Qle_shift_div_r]; lra.
Qed.

(** *** Bounds of the score *)

Lemma sumQ_unit_bounds (xs : list Q) :
  Forall (λ x, 0 <= x <= 1)%Q xs → (0 <= Py.sumQ xs <= inject_Z (Py.len xs))%Q.
Proof.
  induction xs as [|x xs IH] using rev_ind; intros Hxs; [by vm_compute|].
  apply Forall_app in Hxs as [Hxs Hx]. apply Forall_inv in Hx. simpl in Hx.
  specialize (IH Hxs).
  rewrite PyFacts.sumQ_snoc, PyFacts.len_app, inject_Z_plus.
  change (inject_Z (Py.len [x])) with 1%Q. lra.
Qed.

Lemma np_mean_unit_bounds (xs : list Q) :
  Forall (λ x, 0 <= x <= 1)%Q xs → (0 <= np_mean xs <= 1)%Q.
Proof.
  intros Hxs. destruct xs as [|x xs]; [by vm_compute|].
  pose proof (sumQ_unit_bounds _ Hxs) as Hsum. unfold np_mean.
  assert (Hlen : (0 < inject_Z (Py.len (x :: xs)))%Q).
  { change 0%Q with (inject_Z 0). rewrite <- Zlt_Qlt. unfold Py.len. simpl length. lia. }
  split; [apply Qle_shift_div_l | apply Qle_shift_div_r]; lra.
Qed.

Lemma feature_score_unit_bounds (b c : Q) :
  Forall (λ x, 0 <= x <= 1)%Q (feature_score b c).
Proof.
  pose proof (DriftProofs.feature_score_nonneg b c) as Hlow. revert Hlow.
  unfold feature_score. destruct (Py.Qgtb b 0); [|constructor].
  intros Hlow%Forall_inv. constructor; [|constructor].
  split; [exact Hlow|]. unfold Py.min.
  destruct (Py.Qltb 1 _) eqn:E; [lra|]. by apply PyFacts.Qltb_ge in E.
Qed.

(** Over the rationals: between two statistics whose query-type histograms
    have no negative count, every component of the score, and the score, is
    in [[0, 1]]. *)
Lemma calculate_drift_score_unit_bounds (b c : Stats) :
  counts_nonneg (query_type_distribution b) →
  counts_nonneg (query_type_distribution c) →
  (0 <= _calculate_drift_score b c <= 1)%Q.
Proof.
  intros Hb Hc. rewrite DriftProofs.calculate_drift_score_mean.
  apply np_mean_unit_bounds. unfold drift_scores, numerical_scores. cbv zeta.
  destruct (_ && _); rewrite !Forall_app; repeat split;
    try apply feature_score_unit_bounds.
  constructor; [|constructor]. by apply distribution_difference_bounds.
Qed.

(** Rounding keeps a number of [[0, 1]] in [[0, 1]]. *)
Lemma round_unit_bounds (x : Q) (n : nat) :
  (0 <= x <= 1)%Q → (0 <= Py.round x n <= 1)%Q.
Proof.
  intros [Hlow Hhigh]. unfold Py.round.
  pose proof (PyFacts.scale_pos n) as Hs.
  pose proof (PyFacts.round_half_even_near (x * inject_Z (10 ^ Z.of_nat n))) as Hnear.
  set (S := 10 ^ Z.of_nat n) in *.
  set (z := Py.round_half_even (x * inject_Z S)) in *.
  apply Qabs_Qle_condition in Hnear as [Hn1 Hn2].
  assert (Hxs : (0 <= x * inject_Z S <= inject_Z S)%Q) by nra.
  assert (Hz : 0 <= z <= S).
  { split.
    - assert (Hlt : (inject_Z (-1) < inject_Z z)%Q) by (change (inject_Z (-1)) with (-1)%Q; lra).
      rewrite <- Zlt_Qlt in Hlt. lia.
    - assert (Hlt : (inject_Z z < inject_Z (S + 1))%Q)
        by (rewrite inject_Z_plus; change (inject_Z 1) with 1%Q; lra).
      rewrite <- Zlt_Qlt in Hlt. lia. }
  destruct Hz as [Hz1 Hz2]. rewrite Zle_Qle in Hz1, Hz2.
  change (inject_Z 0) with 0%Q in Hz1.
  split; [apply Qle_shift_div_l | apply Qle_shift_div_r]; lra.
Qed.

Section Detector.

Variable np_sqrt : Q → Q.

Local Abbreviation stats := (_calculate_statistics np_sqrt).
Local Abbreviation record_query := (record_query np_sqrt).
Local Abbreviation detect_drift := (detect_drift np_sqrt).
Local Abbreviation run := (run np_sqrt).

(** No call changes the configuration. *)
Lemma run_window_size (w : Z) (th : Q) (ops : list Op) :
  window_size (run (init w th) ops) = w ∧ drift_threshold (run (init w th) ops) = th.
Proof.
  induction ops as [|op ops [IHw IHt]] using rev_ind; [done|].
  rewrite DriftProofs.run_snoc. destruct op as [now q|now].
  - done.
  - change (step np_sqrt ?d (OpDetect now)) with (detect_drift d now).2.
    destruct (DriftProofs.detect_drift_frame np_sqrt (run (init w th) ops) now)
      as (-> & -> & _).
    done.
Qed.

Lemma stats_counts_nonneg (qs : list QueryData) :
  counts_nonneg (query_type_distribution (stats qs)).
Proof.
  unfold counts_nonneg. cbn [_calculate_statistics query_type_distribution].
  eapply map_Forall_impl; [apply HistogramFacts.Counter_positive|].
  intros k v Hv. simpl in *. lia.
Qed.

(** The baseline of a detector is the statistics of some records. *)
Lemma run_baseline_is_stats (w : Z) (th : Q) (ops : list Op) :
  baseline_stats (run (init w th) ops) = None
  ∨ ∃ qs, baseline_stats (run (init w th) ops) = Some (stats qs).
Proof.
  induction ops as [|op ops IH] using rev_ind; [by left|].
  rewrite DriftProofs.run_snoc. destruct op as [t q|t].
  - change (step np_sqrt ?d (OpRecord t q)) with (record_query d t q).
    unfold Drift.record_query. cbn [baseline_stats].
    destruct IH as [->|[qs ->]]; [|right; by exists qs].
    destruct (50 <=? _); [right; by eexists | by left].
  - change (step np_sqrt ?d (OpDetect t)) with (detect_drift d t).2.
    unfold Drift.detect_drift. destruct (_ <? 50); [exact IH|].
    cbn [snd baseline_stats]. right.
    destruct IH as [->|[qs ->]]; by eexists.
Qed.

(** X16: every report [detect_drift] returns on a detector that started
    fresh carries a ['drift_score'] between 0 and 1. *)
Theorem report_score_between_0_and_1 (w : Z) (th : Q) (ops : list Op) (now : Z)
    (r : DriftReport) :
  (detect_drift (run (init w th) ops) now).1 = Report r →
  (0 <= drift_score r <= 1)%Q.
Proof.
  unfold Drift.detect_drift. destruct (_ <? 50); [discriminate|].
  cbv zeta. cbn [fst]. intros [= <-]. cbn [drift_score].
  apply round_unit_bounds, calculate_drift_score_unit_bounds;
    [|apply stats_counts_nonneg].
  destruct (run_baseline_is_stats w th ops) as [->|[qs ->]]; apply stats_counts_nonneg.
Qed.

Lemma length_omap_le {A B} (f : A → option B) (l : list A) :
  (length (omap f l) ≤ length l)%nat.
Proof. induction l as [|x l IH]; csimpl; [done|]. destruct (f x); csimpl; lia. Qed.

(** X17: in the statistics of a set of records the counts of
    ['query_type_distribution'] add up to ['total_queries'], the number of
    records, every one of them being counted under its type or under
    "unknown"; the counts of ['neighborhood_distribution'] add up to the
    number of records that have the key ['neighborhood'], at most
    ['total_queries']. *)
Theorem statistics_histograms_total (qs : list QueryData) :
  total_queries (stats qs) = Py.len qs
  ∧ sum_values (query_type_distribution (stats qs)) = total_queries (stats qs)
  ∧ sum_values (neighborhood_distribution (stats qs)) = Py.len (omap neighborhood qs)
  ∧ sum_values (neighborhood_distribution (stats qs)) <= total_queries (stats qs).
Proof.
  cbn [_calculate_statistics total_queries query_type_distribution
       neighborhood_distribution].
  rewrite !HistogramFacts.Counter_sum. unfold Py.len. rewrite length_map.
  pose proof (length_omap_le neighborhood qs). repeat split; lia.
Qed.

(** X18: the first report a detector can give, with exactly 50 records in
    a window of at least 50, compares these 50 records with themselves: the
    score is 0 and, the threshold not being negative, no drift is
    detected. *)
Theorem first_report_has_no_drift (w : Z) (th : Q) (ops : list Op) (now : Z) :
  50 <= w → length (recorded ops) = 50%nat → (0 <= th)%Q →
  ∃ r : DriftReport,
    (detect_drift (run (init w th) ops) now).1 = Report r
    ∧ rep_baseline_stats r = stats (recorded ops)
    ∧ rep_current_stats r = stats (recorded ops)
    ∧ (drift_score r == 0)%Q
    ∧ drift_detected r = false.
Proof.
  intros Hw Hlen Hth.
  pose proof (DriftProofs.run_baseline np_sqrt w th ops Hw) as Hbase.
  pose proof (DriftProofs.run_recent_small np_sqrt w th ops Hw ltac:(lia)) as Hrecent.
  destruct (run_window_size w th ops) as [_ Hthreshold].
  rewrite Hlen in Hbase. simpl in Hbase.
  rewrite take_ge in Hbase by lia.
  pose proof (DriftProofs.detect_drift_report np_sqrt (run (init w th) ops) now) as Hrep.
  rewrite Hbase, Hrecent, Hlen, Hthreshold in Hrep. simpl in Hrep.
  specialize (Hrep ltac:(unfold Py.len; lia)).
  assert (Hscore : (_calculate_drift_score (stats (recorded ops)) (stats (recorded ops))
                    == 0)%Q).
  { apply DriftProofs.equal_means_score; [by repeat split|].
    apply DriftProofs.distribution_difference_same. }
  eexists. split; [exact Hrep|]. cbn [rep_baseline_stats rep_current_stats drift_score
    drift_detected].
  split; [done|]. split; [done|]. split.
  - rewrite (PyFacts.round_proper _ _ Hscore 3%nat 3%nat eq_refl). apply PyFacts.round_0.
  - apply PyFacts.Qltb_ge. by rewrite Hscore.
Qed.

(** X8: on a fresh detector with a window of at least one record, after
    any sequence of calls the window holds the last [window_size] records
    handed to [record_query], oldest first, and never more than
    [window_size] of them. *)
Theorem window_keeps_last_records (w : Z) (th : Q) (ops : list Op) :
  1 <= w →
  recent_queries (run (init w th) ops)
  = drop (length (recorded ops) - Z.to_nat w) (recorded ops)
  ∧ Py.len (recent_queries (run (init w th) ops)) = Z.min (Py.len (recorded ops)) w.
Proof.
  intros Hw. destruct (DriftProofs.run_window np_sqrt w th ops Hw) as (_ & _ & Hrecent).
  split; [exact Hrecent|].
  rewrite Hrecent. unfold Py.len. rewrite length_drop. lia.
Qed.

(** X9: a window size of [0] bounds nothing: [xs[-0:]] is the whole list,
    and every record ever handed over stays in the window. *)
Theorem zero_window_keeps_everything (th : Q) (ops : list Op) :
  recent_queries (run (init 0 th) ops) = recorded ops.
Proof.
  induction ops as [|op ops IH] using rev_ind; [done|].
  rewrite DriftProofs.run_snoc, DriftProofs.recorded_app.
  destruct (run_window_size 0 th ops) as [Hw _].
  destruct op as [now q|now].
  - change (step np_sqrt ?d (OpRecord now q)) with (record_query d now q).
    change (recorded [OpRecord now q]) with [set_timestamp q now].
    unfold Drift.record_query. cbn [recent_queries]. rewrite Hw, IH.
    assert (Hlen : (0 <? Py.len (recorded ops ++ [set_timestamp q now])) = true).
    { apply Z.ltb_lt. unfold Py.len. rewrite length_app. simpl. lia. }
    by rewrite Hlen.
  - change (step np_sqrt ?d (OpDetect now)) with (detect_drift d now).2.
    change (recorded [OpDetect now]) with (@nil QueryData).
    destruct (DriftProofs.detect_drift_frame np_sqrt (run (init 0 th) ops) now)
      as (_ & _ & ->).
    by rewrite app_nil_r.
Qed.

(** X10: with a negative window size the window stays empty whatever is
    recorded, the baseline is never set, and [detect_drift] always answers
    that the data is insufficient. *)
Theorem negative_window_keeps_nothing (w : Z) (th : Q) (ops : list Op) (now : Z) :
  w < 0 →
  recent_queries (run (init w th) ops) = []
  ∧ baseline_stats (run (init w th) ops) = None
  ∧ (detect_drift (run (init w th) ops) now).1
    = InsufficientData {|
        ins_drift_detected := false;
        ins_reason := "Insufficient data for drift detection";
        ins_samples := 0
      |}.
Proof.
  intros Hw.
  assert (Hinv : recent_queries (run (init w th) ops) = []
                 ∧ baseline_stats (run (init w th) ops) = None).
  { induction ops as [|op ops [IHr IHb]] using rev_ind; [done|].
    rewrite DriftProofs.run_snoc.
    destruct (run_window_size w th ops) as [Hsize _].
    destruct op as [t q|t].
    - change (step np_sqrt ?d (OpRecord t q)) with (record_query d t q).
      unfold Drift.record_query. cbn [recent_queries baseline_stats].
      rewrite Hsize, IHr, IHb. simpl app.
      assert (Hlen : (w <? Py.len [set_timestamp q t]) = true)
        by (apply Z.ltb_lt; unfold Py.len; simpl; lia).
      rewrite Hlen. unfold Py.slice_from.
      destruct (0 <=? - w) eqn:E; [|apply Z.leb_gt in E; lia].
      rewrite drop_ge by (simpl; lia). done.
    - change (step np_sqrt ?d (OpDetect t)) with (detect_drift d t).2.
      rewrite DriftProofs.detect_drift_insufficient by (rewrite IHr; by vm_compute).
      done. }
  destruct Hinv as [Hr Hb]. split; [exact Hr|]. split; [exact Hb|].
  rewrite DriftProofs.detect_drift_insufficient by (rewrite Hr; by vm_compute).
  by rewrite Hr.
Qed.

(** [record_query] leaves the drift history alone; [detect_drift] appends
    its report exactly when it detected drift. *)
Lemma detect_drift_history (d : DriftDetector) (now : Z) :
  drift_history (detect_drift d now).2 = drift_history d
  ∨ ∃ r, drift_history (detect_drift d now).2 = drift_history d ++ [r]
         ∧ (detect_drift d now).1 = Report r
         ∧ drift_detected r = true ∧ rep_timestamp r = now.
Proof.
  unfold Drift.detect_drift.
  destruct (Py.len (recent_queries d) <? 50); [by left|].
  cbv zeta. cbn [fst snd drift_history].
  destruct (Py.Qgtb _ (drift_threshold d)) eqn:E; [right|by left].
  eexists. split; [reflexivity|]. split; [reflexivity|]. by split.
Qed.

(** X11: the drift history of a detector holds only reports that detected
    drift, one for each [detect_drift] call that did, in call order: their
    timestamps are clock readings of [detect_drift] calls, and the history
    is never longer than the number of such calls. *)
Theorem drift_history_only_detections (w : Z) (th : Q) (ops : list Op) :
  let d := run (init w th) ops in
  Forall (λ r, drift_detected r = true) (drift_history d)
  ∧ map rep_timestamp (drift_history d) `sublist_of` detect_times ops
  ∧ (length (drift_history d) ≤ length (detect_times ops))%nat.
Proof.
  cbv zeta.
  assert (Hinv : Forall (λ r, drift_detected r = true)
                        (drift_history (run (init w th) ops))
                 ∧ map rep_timestamp (drift_history (run (init w th) ops))
                   `sublist_of` detect_times ops).
  { induction ops as [|op ops [IHd IHt]] using rev_ind; [done|].
    rewrite DriftProofs.run_snoc, detect_times_app.
    destruct op as [t q|t].
    - change (step np_sqrt ?d (OpRecord t q)) with (record_query d t q).
      change (detect_times [OpRecord t q]) with (@nil Z).
      rewrite app_nil_r. done.
    - change (step np_sqrt ?d (OpDetect t)) with (detect_drift d t).2.
      change (detect_times [OpDetect t]) with [t].
      destruct (detect_drift_history (run (init w th) ops) t)
        as [->|(r & -> & _ & Hr & Ht)].
      + split; [done|]. by apply sublist_inserts_r.
      + split; [apply Forall_app; by repeat constructor|].
        rewrite map_app. simpl. rewrite Ht. by apply sublist_app. }
  destruct Hinv as [Hd Ht]. split; [exact Hd|]. split; [exact Ht|].
  apply sublist_length in Ht. by rewrite length_map in Ht.
Qed.

(** X12: [should_trigger_retraining] answers [True] only if at least three
    [detect_drift] calls were made less than 24 hours before; once 24 hours
    have passed since the last [detect_drift] call it answers [False]. *)
Theorem should_trigger_needs_three_recent_detections (w : Z) (th : Q) (ops : list Op)
    (now : Z) :
  should_trigger_retraining (run (init w th) ops) now = true →
  3 <= Py.len (filter (λ t, now - 24 * 3600 * 1000000 < t) (detect_times ops)).
Proof.
  unfold should_trigger_retraining. intros Htrigger%Z.leb_le.
  destruct (drift_history_only_detections w th ops) as (_ & Hsub & _).
  apply (filter_sublist_mono (λ t, now - 24 * 3600 * 1000000 < t)), sublist_length in Hsub.
  rewrite <- (filter_map_length rep_timestamp) in Hsub.
  unfold Py.len in *. lia.
Qed.

End Detector.

(** X8 on the module-level detector after 110 records. *)
Lemma window_keeps_last_records_witness :
  1 <= window_size drift_detector
  ∧ Py.len (recent_queries (run example_sqrt drift_detector search_then_price_check))
    = Z.min (Py.len (recorded search_then_price_check)) 100.
Proof.
  assert (Hw : 1 <= window_size drift_detector) by (by vm_compute).
  split; [exact Hw|].
  apply (window_keeps_last_records example_sqrt 100 (3 # 10) search_then_price_check Hw).
Defined.

(** X10 on a window size of -5 after 110 records. *)
Lemma negative_window_keeps_nothing_witness :
  -5 < 0
  ∧ recent_queries (run example_sqrt (init (-5) (3 # 10)) search_then_price_check) = [].
Proof.
  assert (Hw : -5 < 0) by lia.
  split; [exact Hw|].
  apply (negative_window_keeps_nothing example_sqrt (-5) (3 # 10)
           search_then_price_check 0 Hw).
Defined.

(** X16 on the report after 60 searches and 50 price checks. *)
Lemma report_score_between_0_and_1_witness :
  ∃ r : DriftReport,
    (detect_drift example_sqrt (run example_sqrt drift_detector search_then_price_check) 0).1
    = Report r
    ∧ (0 <= drift_score r <= 1)%Q.
Proof.
  assert (Hr : ∃ r, (detect_drift example_sqrt
                       (run example_sqrt drift_detector search_then_price_check) 0).1
                    = Report r) by (eexists; vm_compute; reflexivity).
  destruct Hr as [r Hr]. exists r. split; [exact Hr|].
  exact (report_score_between_0_and_1 example_sqrt 100 (3 # 10)
           search_then_price_check 0 r Hr).
Defined.

(** X18 on the module-level detector after 50 searches. *)
Lemma first_report_has_no_drift_witness :
  50 <= window_size drift_detector
  ∧ length (recorded (record_n 0 50 (typed_query "search"))) = 50%nat
  ∧ (0 <= drift_threshold drift_detector)%Q
  ∧ ∃ r : DriftReport,
      (detect_drift example_sqrt (just_active example_sqrt) 0).1 = Report r
      ∧ drift_detected r = false.
Proof.
  assert (Hw : 50 <= window_size drift_detector) by (by vm_compute).
  assert (Hn : length (recorded (record_n 0 50 (typed_query "search"))) = 50%nat)
    by (by vm_compute).
  assert (Hth : (0 <= drift_threshold drift_detector)%Q) by (by vm_compute).
  split; [exact Hw|]. split; [exact Hn|]. split; [exact Hth|].
  destruct (first_report_has_no_drift example_sqrt 100 (3 # 10)
              (record_n 0 50 (typed_query "search")) 0 Hw Hn Hth)
    as (r & Hr & _ & _ & _ & Hd).
  exists r. by split.
Defined.

(** X12 four hours after the first record of a run with three detections. *)
Lemma should_trigger_needs_three_recent_detections_witness :
  should_trigger_retraining (run example_sqrt drift_detector drifting_thrice) 14400000000
  = true
  ∧ 3 <= Py.len (filter (λ t, 14400000000 - 24 * 3600 * 1000000 < t)
                        (detect_times drifting_thrice)).
Proof.
  assert (Htrigger : should_trigger_retraining
                       (run example_sqrt drift_detector drifting_thrice) 14400000000
                     = true) by (by vm_compute).
  split; [exact Htrigger|].
  exact (should_trigger_needs_three_recent_detections example_sqrt 100 (3 # 10)
           drifting_thrice 14400000000 Htrigger).
Defined.

End DriftExtra.

(** ** trigger.py *)

Module TriggerExtra.
Import Trigger.

(** [_record_retraining_event] appends and keeps the newest 100. *)
Lemma record_event_history (self : RetrainingTrigger) (event : Decision) :
  retraining_history (_record_retraining_event self event)
  = drop (length (retraining_history self ++ [event]) - 100)
         (retraining_history self ++ [event]).
Proof.
  unfold _record_retraining_event. cbn [retraining_history].
  by rewrite (PyFacts.truncate_last 100).
Qed.

(** [24 * 3600] seconds in microseconds. *)
Lemma hours_since_lt_24 (last now : Z) :
  (hours_since last now < 24)%Q ↔ now - last < 86400000000.
Proof.
  unfold hours_since, Py.total_seconds.
  assert (Heq : (inject_Z (now - last) / 1000000 / 3600
                 == inject_Z (now - last) / inject_Z 3600000000)%Q).
  { change (inject_Z 3600000000) with 3600000000%Q. field. }
  rewrite Heq. split.
  - intros H. destruct (Z_lt_le_dec (now - last) 86400000000) as [?|Hge]; [done|].
    exfalso. apply (Qlt_not_le _ _ H). apply Qle_shift_div_l; [by vm_compute|].
    change (24 * inject_Z 3600000000)%Q with (inject_Z 86400000000).
    by rewrite <- Zle_Qle.
  - intros H. apply Qlt_shift_div_r; [by vm_compute|].
    change (24 * inject_Z 3600000000)%Q with (inject_Z 86400000000).
    by rewrite <- Zlt_Qlt.
Qed.

Section Evaluate.

Variable format : Q → string → string.

Local Abbreviation evaluate_retraining_need := (evaluate_retraining_need format).

(** What an evaluation does to the trigger: nothing, or it records the
    decision it returns, which then says to retrain. *)
Lemma evaluate_state (self self' : RetrainingTrigger) (now : Z) (metrics : MetricsInfo)
    (drift_info : DriftInfo) (decision : Decision) :
  evaluate_retraining_need self now metrics drift_info = Some (decision, self') →
  (should_retrain decision = false ∧ self' = self)
  ∨ (should_retrain decision = true ∧ self' = _record_retraining_event self decision).
Proof.
  unfold Trigger.evaluate_retraining_need.
  destruct (too_soon self now); [intros [= <- <-]; by left|].
  destruct metrics as [srp total failed avg], drift_info as [detected score].
  cbn [success_rate_percent total_api_calls failed_responses avg_response_time_seconds
       drift_detected drift_score].
  unfold success_rate_of. cbn [success_rate_percent].
  destruct (Py.Qltb (default 100%Q srp / 100) (performance_threshold self));
    destruct (default false detected);
    destruct (Py.Qgtb (default 0%Q score) (drift_threshold self));
    destruct (min_samples_for_evaluation self <=? default 0 total);
    destruct (default 0 total =? 0);
    destruct (Py.Qgtb (inject_Z (default 0 failed) / inject_Z (default 0 total)) (15 # 100));
    destruct (Py.Qgtb (default 0%Q avg) 5);
    cbn -[Py.Qltb Py.Qgtb _record_retraining_event];
    try discriminate; intros [= <- <-]; cbn [should_retrain]; auto.
Qed.

(** X19: [evaluate_retraining_need] raises, with a [ZeroDivisionError],
    exactly when the early return does not apply, ['total_api_calls'] is 0
    or missing, and [min_samples_for_evaluation] is not positive; with a
    positive [min_samples_for_evaluation], as [__init__] sets it, it always
    returns. *)
Theorem evaluate_raises_iff (self : RetrainingTrigger) (now : Z) (metrics : MetricsInfo)
    (drift_info : DriftInfo) :
  (evaluate_retraining_need self now metrics drift_info = None
   ↔ too_soon self now = false
     ∧ default 0 (total_api_calls metrics) = 0
     ∧ min_samples_for_evaluation self <= 0)
  ∧ (0 < min_samples_for_evaluation self →
     is_Some (evaluate_retraining_need self now metrics drift_info)).
Proof.
  assert (Hiff : evaluate_retraining_need self now metrics drift_info = None
                 ↔ too_soon self now = false
                   ∧ default 0 (total_api_calls metrics) = 0
                   ∧ min_samples_for_evaluation self <= 0).
  { unfold Trigger.evaluate_retraining_need.
    destruct (too_soon self now); [split; [discriminate | by intros [? _]]|].
    destruct metrics as [srp total failed avg], drift_info as [detected score].
    cbn [success_rate_percent total_api_calls failed_responses avg_response_time_seconds
         drift_detected drift_score].
    unfold success_rate_of. cbn [success_rate_percent].
    destruct (min_samples_for_evaluation self <=? default 0 total) eqn:Emin;
      [apply Z.leb_le in Emin | apply Z.leb_gt in Emin];
      (destruct (default 0 total =? 0) eqn:Ezero;
       [apply Z.eqb_eq in Ezero | apply Z.eqb_neq in Ezero]);
      destruct (Py.Qltb (default 100%Q srp / 100) (performance_threshold self));
      destruct (default false detected);
      destruct (Py.Qgtb (default 0%Q score) (drift_threshold self));
      destruct (Py.Qgtb (inject_Z (default 0 failed) / inject_Z (default 0 total))
                        (15 # 100));
      destruct (Py.Qgtb (default 0%Q avg) 5);
      cbn -[Py.Qltb Py.Qgtb _record_retraining_event];
      (split; [try discriminate; intros _; repeat split; lia
              | intros (_ & ? & ?); try done; lia]). }
  split; [exact Hiff|].
  intros Hmin. apply not_eq_None_Some. rewrite Hiff. intros (_ & _ & ?). lia.
Qed.

End Evaluate.

Section Runs.

Variable format : Q → string → string.
Variable strftime : Z → string → string.

Local Abbreviation evaluate_retraining_need := (evaluate_retraining_need format).
Local Abbreviation trigger_retraining_pipeline := (trigger_retraining_pipeline strftime).
Local Abbreviation run := (run format strftime).

(** [trigger_retraining_pipeline] assigns nothing but [last_retraining]. *)
Lemma pipeline_frame (self : RetrainingTrigger) (w : World) (now : Z) (reason : string) :
  let self' := (trigger_retraining_pipeline self w now reason).1.2 in
  retraining_history self' = retraining_history self
  ∧ performance_threshold self' = performance_threshold self
  ∧ drift_threshold self' = drift_threshold self
  ∧ min_samples_for_evaluation self' = min_samples_for_evaluation self
  ∧ min_retraining_interval_hours self' = min_retraining_interval_hours self.
Proof.
  unfold Trigger.trigger_retraining_pipeline, _save_retraining_job.
  by destruct w as [jobs [] [] [pid|]].
Qed.

Lemma trigger_run_snoc (self : RetrainingTrigger) (ops : list Op) (op : Op) :
  run self (ops ++ [op]) = step format strftime (run self ops) op.
Proof. unfold Trigger.run. by rewrite foldl_app. Qed.

(** X20: after any sequence of evaluations and pipeline launches on a fresh
    trigger, the retraining history holds at most 100 decisions, each of
    them a decision to retrain, the thresholds are those of [__init__], and
    [get_retraining_status] reports at most 5 recent events. *)
Theorem retraining_history_bounded (ops : list Op) :
  let self := run init ops in
  (length (retraining_history self) ≤ 100)%nat
  ∧ Forall (λ decision, should_retrain decision = true) (retraining_history self)
  ∧ default_config self
  ∧ total_retraining_events (get_retraining_status self) <= 100
  ∧ Py.len (recent_events (get_retraining_status self)) <= 5.
Proof.
  cbv zeta.
  assert (Hinv : (length (retraining_history (run init ops)) ≤ 100)%nat
                 ∧ Forall (λ decision, should_retrain decision = true)
                          (retraining_history (run init ops))
                 ∧ default_config (run init ops)).
  { induction ops as [|op ops (IHlen & IHall & IHconfig)] using rev_ind;
      [split; [simpl; lia|]; split; [constructor|]; by repeat split|].
    rewrite trigger_run_snoc. set (self := run init ops) in *.
    destruct op as [now metrics drift_info|w now reason]; cbn [step].
    - destruct (evaluate_retraining_need self now metrics drift_info)
        as [[decision self']|] eqn:Heval; [|done].
      apply (evaluate_state format) in Heval as [[_ ->]|[Hretrain ->]]; [done|].
      rewrite record_event_history. split; [rewrite length_drop, length_app; simpl; lia|].
      split; [|exact IHconfig].
      apply Forall_drop, Forall_app. by repeat constructor.
    - destruct (pipeline_frame self w now reason) as (Hh & Hp & Hd & Hm & Hi).
      rewrite Hh. split; [done|]. split; [done|].
      destruct IHconfig as (? & ? & ? & ?). unfold default_config.
      rewrite Hp, Hd, Hm, Hi. done. }
  destruct Hinv as (Hlen & Hall & Hconfig).
  split; [exact Hlen|]. split; [exact Hall|]. split; [exact Hconfig|].
  unfold get_retraining_status. cbn [total_retraining_events recent_events].
  rewrite (PyFacts.slice_from_neg 5) by lia. unfold Py.len. rewrite length_drop. lia.
Qed.

(** X21: a pipeline launch that reports success starts the retraining
    interval: with the interval of [__init__], an evaluation less than 24
    hours later returns the "too soon" result and leaves the trigger
    alone, whatever the metrics and drift are; from 24 hours on the early
    return no longer applies. *)
Theorem launch_starts_retraining_interval (self : RetrainingTrigger) (w : World)
    (now now' : Z) (reason : string) (metrics : MetricsInfo) (drift_info : DriftInfo) :
  min_retraining_interval_hours self = 24%Q →
  (trigger_retraining_pipeline self w now reason).1.1 = true →
  let self' := (trigger_retraining_pipeline self w now reason).1.2 in
  too_soon self' now' = (now' - now <? 86400000000)
  ∧ (now' - now < 86400000000 →
     evaluate_retraining_need self' now' metrics drift_info
     = Some ({|
         should_retrain := false;
         reasons := ["Too soon since last retraining"%string];
         time_since_last_hours := Some (hours_since now now');
         timestamp := None;
         metrics_evaluated := None
       |}, self')).
Proof.
  intros Hinterval Hok self'.
  assert (Hlast : last_retraining self' = Some now
                  ∧ min_retraining_interval_hours self' = 24%Q).
  { subst self'. revert Hok.
    unfold Trigger.trigger_retraining_pipeline, _save_retraining_job.
    destruct w as [jobs [] [] [pid|]]; cbn; by intros. }
  destruct Hlast as [Hlast Hint].
  assert (Hsoon : too_soon self' now' = (now' - now <? 86400000000)).
  { unfold too_soon. rewrite Hlast, Hint.
    destruct (now' - now <? 86400000000) eqn:E.
    - apply PyFacts.Qltb_lt, hours_since_lt_24. by apply Z.ltb_lt.
    - apply PyFacts.Qltb_ge. apply Z.ltb_ge in E.
      apply Qnot_lt_le. rewrite hours_since_lt_24. lia. }
  split; [exact Hsoon|].
  intros Hlt. unfold Trigger.evaluate_retraining_need.
  rewrite Hsoon, Hlast. by apply Z.ltb_lt in Hlt as ->.
Qed.

(** X22: the job descriptor is written to the jobs file before the launch
    is tried: unless reading or writing the file raises, the file after
    the call is the old list of jobs, or the empty list when there was no
    file, followed by the new job in status "initiated", also when the
    launch fails and the call returns [False]. *)
Theorem job_recorded_before_launch (self : RetrainingTrigger) (w : World) (now : Z)
    (reason : string) :
  jobs_io_error w = false →
  ∃ job : Job,
    jobs_file (trigger_retraining_pipeline self w now reason).2
    = Some (default [] (jobs_file w) ++ [job])
    ∧ job_reason job = reason
    ∧ triggered_at job = now
    ∧ status job = "initiated"%string
    ∧ length (steps job) = 5%nat.
Proof.
  intros Hio. unfold Trigger.trigger_retraining_pipeline, _save_retraining_job.
  rewrite Hio. eexists.
  split; [by destruct (script_exists w), (popen w)|]. done.
Qed.

End Runs.

(** A rounded number above 0.3 is at least 0.301. *)
Lemma round_above_threshold (s : Q) :
  (3 # 10 < Py.round s 3)%Q → (301 # 1000 <= Py.round s 3)%Q.
Proof.
  unfold Py.round. change (inject_Z (10 ^ Z.of_nat 3)) with 1000%Q.
  generalize (Py.round_half_even (s * 1000)). intros z Hz.
  assert (Hlt : 300 < z).
  { destruct (Z_lt_le_dec 300 z) as [?|Hle]; [done|]. exfalso.
    apply (Qlt_not_le _ _ Hz). apply Qle_shift_div_r; [by vm_compute|].
    apply (Qle_trans _ (inject_Z 300)); [by rewrite <- Zle_Qle | by vm_compute]. }
  assert (Hle : (inject_Z 301 <= inject_Z z)%Q) by (rewrite <- Zle_Qle; lia).
  change (inject_Z 301) with 301%Q in Hle.
  apply Qle_shift_div_l; [by vm_compute | lra].
Qed.

Section DetectorToTrigger.

Variable np_sqrt : Q → Q.
Variable format : Q → string → string.

(** X23: when the result of [detect_drift] is handed to
    [evaluate_retraining_need] as its [drift_info], on a trigger with the
    thresholds of [__init__], the drift reason is listed only for a report
    that detected drift and whose rounded score is at least 0.301; an
    insufficient-data result never gives it. *)
Theorem drift_reason_needs_detected_drift (d : Drift.DriftDetector) (detect_time : Z)
    (self self' : RetrainingTrigger) (now : Z) (metrics : MetricsInfo)
    (decision : Decision) (x : Q) :
  default_config self →
  evaluate_retraining_need format self now metrics
    (drift_info_of (Drift.detect_drift np_sqrt d detect_time).1)
  = Some (decision, self') →
  drift_reason format x ∈ reasons decision →
  ∃ r : Drift.DriftReport,
    (Drift.detect_drift np_sqrt d detect_time).1 = Drift.Report r
    ∧ Drift.drift_detected r = true
    ∧ (301 # 1000 <= Drift.drift_score r)%Q.
Proof.
  intros (Hperf & Hdrift & Hmin & _) Heval Hin.
  assert (Hcheck : default false (drift_detected
                     (drift_info_of (Drift.detect_drift np_sqrt d detect_time).1)) = true
                   ∧ Py.Qgtb (default 0%Q (drift_score
                       (drift_info_of (Drift.detect_drift np_sqrt d detect_time).1)))
                             (3 # 10) = true).
  { revert Heval Hin. generalize (drift_info_of (Drift.detect_drift np_sqrt d detect_time).1).
    intros [detected score]. unfold Trigger.evaluate_retraining_need.
    rewrite Hperf, Hdrift, Hmin.
    change (drift_threshold init) with (3 # 10)%Q.
    destruct (too_soon self now).
    { intros [= <- <-] Hin. cbn in Hin.
      apply elem_of_cons in Hin as [Hin|Hin]; [discriminate | by apply elem_of_nil in Hin]. }
    destruct metrics as [srp total failed avg].
    cbn [success_rate_percent total_api_calls failed_responses avg_response_time_seconds
         drift_detected drift_score].
    unfold success_rate_of. cbn [success_rate_percent].
    destruct (default false detected) eqn:Ed;
      destruct (Py.Qgtb (default 0%Q score) (3 # 10)) eqn:E2; [done|..];
      destruct (Py.Qltb (default 100%Q srp / 100) (performance_threshold init));
      destruct (min_samples_for_evaluation init <=? default 0 total);
      destruct (default 0 total =? 0);
      destruct (Py.Qgtb (inject_Z (default 0 failed) / inject_Z (default 0 total))
                        (15 # 100));
      destruct (Py.Qgtb (default 0%Q avg) 5);
      cbn -[Py.Qltb Py.Qgtb _record_retraining_event];
      try discriminate; intros [= <- <-] Hin; cbn [reasons] in Hin; exfalso;
      repeat (apply elem_of_app in Hin as [Hin|Hin]);
      repeat (apply elem_of_cons in Hin as [Hin|Hin]; [discriminate Hin|]);
      try (by apply elem_of_nil in Hin). }
  destruct Hcheck as [Hdetected Hscore].
  pose proof (DriftProofs.detect_drift_report np_sqrt d detect_time) as Hrep.
  unfold Drift.detect_drift in Hdetected, Hscore, Hrep |- *.
  destruct (Py.len (Drift.recent_queries d) <? 50) eqn:Elen; [discriminate Hdetected|].
  cbv zeta in *. cbn [fst drift_info_of drift_detected drift_score] in *.
  eexists. split; [reflexivity|]. cbn [Drift.drift_detected Drift.drift_score].
  split; [exact Hdetected|].
  apply round_above_threshold. by apply PyFacts.Qgtb_gt.
Qed.

End DetectorToTrigger.

(** X23 on the report after 60 searches and 50 price checks that carry
    nothing but their type. *)
Lemma drift_reason_needs_detected_drift_witness :
  default_config init
  ∧ ∃ r : Drift.DriftReport,
      (Drift.detect_drift Drift.example_sqrt Drift.type_shift_only 0).1 = Drift.Report r
      ∧ Drift.drift_detected r = true.
Proof.
  assert (Hconfig : default_config init) by (by repeat split).
  split; [exact Hconfig|].
  assert (Heval : ∃ decision self',
            evaluate_retraining_need example_format init 0 healthy_metrics
              (drift_info_of (Drift.detect_drift Drift.example_sqrt
                                Drift.type_shift_only 0).1)
            = Some (decision, self')
            ∧ drift_reason example_format 1 ∈ reasons decision).
  { eexists. eexists. split; [vm_compute; reflexivity|]. apply list_elem_of_here. }
  destruct Heval as (decision & self' & Heval & Hin).
  destruct (drift_reason_needs_detected_drift Drift.example_sqrt example_format
              Drift.type_shift_only 0 init self' 0 healthy_metrics decision 1
              Hconfig Heval Hin)
    as (r & Hr & Hd & _).
  exists r. by split.
Defined.

(** X19 on a trigger whose [min_samples_for_evaluation] was set to 0. *)
Lemma evaluate_raises_iff_witness :
  0 < min_samples_for_evaluation init
  ∧ is_Some (evaluate_retraining_need example_format init 0 healthy_metrics no_drift)
  ∧ evaluate_retraining_need example_format no_minimum 0 no_metrics no_drift = None.
Proof.
  assert (Hmin : 0 < min_samples_for_evaluation init) by (by vm_compute).
  split; [exact Hmin|]. split.
  - exact (proj2 (evaluate_raises_iff example_format init 0 healthy_metrics no_drift) Hmin).
  - apply (proj1 (evaluate_raises_iff example_format no_minimum 0 no_metrics no_drift)).
    by vm_compute.
Defined.

(** X21 one hour after a launch with the runner script missing. *)
Lemma launch_starts_retraining_interval_witness :
  min_retraining_interval_hours init = 24%Q
  ∧ (trigger_retraining_pipeline example_strftime init script_missing 0 "drift").1.1 = true
  ∧ too_soon (trigger_retraining_pipeline example_strftime init script_missing 0 "drift").1.2
             3600000000
    = true.
Proof.
  split; [reflexivity|]. split; [reflexivity|].
  exact (proj1 (launch_starts_retraining_interval example_format example_strftime
                  init script_missing 0 3600000000 "drift" failing_metrics strong_drift
                  eq_refl eq_refl)).
Defined.

(** X22 on a launch that raises. *)
Lemma job_recorded_before_launch_witness :
  jobs_io_error launch_raises = false
  ∧ (trigger_retraining_pipeline example_strftime init launch_raises 0 "drift").1.1 = false
  ∧ ∃ job : Job,
      jobs_file (trigger_retraining_pipeline example_strftime init launch_raises 0 "drift").2
      = Some (default [] (jobs_file launch_raises) ++ [job])
      ∧ status job = "initiated"%string.
Proof.
  split; [reflexivity|]. split; [reflexivity|].
  destruct (job_recorded_before_launch example_strftime init launch_raises 0 "drift" eq_refl)
    as (job & Hfile & _ & _ & Hstatus & _).
  exists job. by split.
Defined.

End TriggerExtra.

(** ** alerts.py *)

Module AlertsExtra.
Import Alerts.

Section Manager.

Variable Data : Type.
Variable post : string → string → Posted.
Variable _format_drift_message : Data → string.
Variable _format_retraining_message : Data → string.
Variable _format_performance_message : Data → string.
Variable deployment_message : Data → string.

Local Abbreviation dispatch := (_dispatch_notification Data post).
Local Abbreviation dispatch_all := (dispatch_all Data post).
Local Abbreviation history := (notification_history Data).

(** X24: [get_notification_history(limit)] on a manager that started fresh
    returns, for a limit of at least 1, the newest [limit] notifications
    dispatched, and never more than the 1000 retained; for a limit of 0 it
    returns not the empty list but everything retained, [xs[-0:]] being
    the whole list. *)
Theorem notification_history_limit (email slack : bool) (webhook : string)
    (ns : list (Notification Data)) (limit : Z) :
  let m := dispatch_all (init Data email slack webhook) ns in
  (1 <= limit →
   get_notification_history Data m limit
   = drop (length ns - Z.to_nat (Z.min limit 1000)) ns)
  ∧ get_notification_history Data m 0 = drop (length ns - 1000) ns.
Proof.
  cbv zeta. unfold get_notification_history.
  rewrite AlertsProofs.dispatch_all_history. split.
  - intros Hlimit. rewrite PyFacts.slice_from_neg by lia.
    rewrite length_drop, drop_drop. f_equal. lia.
  - done.
Qed.

(** The loop of [get_notification_stats] counts types and severities
    side by side. *)
Lemma stats_fold (ns : list (Notification Data)) (bt bs : gmap string Z) :
  foldl (λ (acc : gmap string Z * gmap string Z) notif,
           (<[type Data notif := default 0 (acc.1 !! type Data notif) + 1]> acc.1,
            <[severity Data notif := default 0 (acc.2 !! severity Data notif) + 1]> acc.2))
        (bt, bs) ns
  = (foldl (λ m k, <[k := default 0 (m !! k) + 1]> m) bt (map (type Data) ns),
     foldl (λ m k, <[k := default 0 (m !! k) + 1]> m) bs (map (severity Data) ns)).
Proof.
  revert bt bs. induction ns as [|n ns IH]; intros bt bs; [done|].
  simpl. by rewrite IH.
Qed.

(** X25: in the statistics of a manager, ['total_notifications'] is the
    number of notifications retained, the counts by type add up to it and
    so do the counts by severity, and each type is mapped to the number of
    retained notifications of that type. *)
Theorem notification_stats_totals (m : NotificationManager Data) (t : string) :
  let stats := get_notification_stats Data m in
  total_notifications stats = Py.len (history m)
  ∧ Drift.sum_values (by_type stats) = total_notifications stats
  ∧ Drift.sum_values (by_severity stats) = total_notifications stats
  ∧ by_type stats !! t
    = if Py.len (filter (λ n, type Data n = t) (history m)) =? 0 then None
      else Some (Py.len (filter (λ n, type Data n = t) (history m))).
Proof.
  cbv zeta. unfold get_notification_stats.
  destruct (history m) as [|n ns] eqn:Hh; [by vm_compute|].
  rewrite stats_fold. cbn [total_notifications by_type by_severity fst snd].
  rewrite !HistogramFacts.count_fold_sum, HistogramFacts.count_fold_lookup.
  unfold Drift.sum_values. rewrite map_fold_empty, lookup_empty.
  unfold Py.len. rewrite !length_map.
  assert (Hfilter : length (filter (λ x, x = t) (map (type Data) (n :: ns)))
                    = length (filter (λ n, type Data n = t) (n :: ns))).
  { generalize (n :: ns). intros l. induction l as [|x l IH]; [done|].
    simpl map. rewrite !filter_cons. destruct (decide (type Data x = t)); simpl;
      by rewrite IH. }
  rewrite Hfilter. done.
Qed.

(** X26: whatever the history holds, a dispatched notification is its
    newest entry afterwards, its message is the first record logged, and
    the two transport switches and the webhook are left as they were. *)
Theorem dispatched_notification_is_newest (m : NotificationManager Data)
    (n : Notification Data) :
  last (history (dispatch m n).1) = Some n
  ∧ snd <$> head (dispatch m n).2 = Some (message Data n)
  ∧ email_enabled Data (dispatch m n).1 = email_enabled Data m
  ∧ slack_enabled Data (dispatch m n).1 = slack_enabled Data m
  ∧ slack_webhook Data (dispatch m n).1 = slack_webhook Data m.
Proof.
  split; [|done].
  rewrite AlertsProofs.dispatch_history, length_app.
  rewrite drop_app_le by (simpl; lia). apply last_snoc.
Qed.

(** The four senders log their message at the level of the severity they
    set: performance alerts as errors, drift alerts as warnings, retraining
    alerts and deployment notices as information. *)
Lemma senders_log_at_their_severity (m : NotificationManager Data) (now : Z) (x : Data) :
  head (send_performance_alert Data post _format_performance_message m now x).2
  = Some (ERROR, _format_performance_message x)
  ∧ head (send_drift_alert Data post _format_drift_message m now x).2
    = Some (WARNING, _format_drift_message x)
  ∧ head (send_retraining_alert Data post _format_retraining_message m now x).2
    = Some (INFO, _format_retraining_message x)
  ∧ head (send_deployment_success Data post deployment_message m now x).2
    = Some (INFO, deployment_message x).
Proof. done. Qed.

End Manager.

(** X24 on 10000 notifications and a limit of 50. *)
Lemma notification_history_limit_witness :
  1 <= 50
  ∧ get_notification_history unit
      (Alerts.dispatch_all unit no_post (init unit true true "hook") ten_thousand) 50
    = drop (length ten_thousand - Z.to_nat (Z.min 50 1000)) ten_thousand.
Proof.
  assert (Hlimit : 1 <= 50) by lia.
  split; [exact Hlimit|].
  exact (proj1 (notification_history_limit unit no_post true true "hook" ten_thousand 50)
           Hlimit).
Defined.

End AlertsExtra.

(** ** retrain_model.py *)

Module PipelineExtra.
Import Pipeline.

(** X27: [validate_new_model] passes exactly when the retrieval pipeline
    can be built and each of the three test queries returns a truthy
    answer: two answers out of three score 66.7, below the 80 required. *)
Theorem validation_needs_every_answer (w : World) :
  validate_new_model w = true
  ↔ rag_available w = true
    ∧ Forall (λ query, chat w query = ChatAnswer true) test_queries.
Proof.
  unfold validate_new_model, successful_queries, test_queries.
  destruct (rag_available w); [|split; [discriminate | by intros [? _]]].
  cbn [foldl].
  destruct (chat w "Show me properties in Back Bay") as [|[]] eqn:E1;
    destruct (chat w "What is the crime rate in Roxbury?") as [|[]] eqn:E2;
    destruct (chat w "Find 3 bedroom homes under 700k") as [|[]] eqn:E3;
    (split;
     [ intros Hscore; try (by vm_compute in Hscore); by repeat constructor
     | intros [_ Hall]; try (by vm_compute);
       apply Forall_cons in Hall as [H1 Hall];
       apply Forall_cons in Hall as [H2 Hall];
       apply Forall_cons in Hall as [H3 _]; congruence ]).
Qed.

(** X28: [run_full_pipeline] always sends the retraining alert first; it
    returns [True] exactly when pulling, retraining and validation all
    succeed, also when the new model is then not deployed; and it sends
    the deployment notice exactly when it returns [True] and the comparison
    with the baseline said to deploy. *)
Theorem pipeline_result (w : World) :
  head (run_full_pipeline w).2 = Some RetrainingAlert
  ∧ (run_full_pipeline w).1
    = pull_latest_data w && retrain_model w && validate_new_model w
  ∧ (DeploymentSuccess ∈ (run_full_pipeline w).2
     ↔ (run_full_pipeline w).1 = true ∧ compare_with_baseline w = true).
Proof.
  unfold run_full_pipeline, deploy_new_model.
  destruct (pull_latest_data w), (retrain_model w), (validate_new_model w),
    (compare_with_baseline w); cbn; (split; [done|]); (split; [done|]);
    (split; [intros Hin | intros [? ?]; try done]);
    try (repeat (apply elem_of_cons in Hin as [Hin|Hin]; [discriminate Hin|]);
         by apply elem_of_nil in Hin);
    try done.
  all: apply list_elem_of_further, list_elem_of_here.
Qed.



End PipelineExtra.
